(** * LEAP call screener: a shallow embedding of [leap_screener.py]

    The development follows [src/leap-screener/scripts/leap_screener.py]:
    the metric extractor ([get_technical_metrics]), the option selector
    ([pick_atm_call], [get_option_metrics]), the scorer ([score_stock]), the
    per-ticker funnel ([analyze_ticker]) and the batch loop of [main].

    Number model.  Python floats are idealised as exact rationals ([Q]).
    A value that [safe_float] maps to [None] (a missing key, [None], NaN or an
    infinity) is [None : option Q]; every other value is [Some q].  Equalities
    between computed numbers are stated with [==] ([Qeq]).

    Collaborators.  The market-data provider ([yf.Ticker]), [math.log10], the
    RSI indicator of the [ta] package, [datetime.strptime] and the current
    date are parameters of the model.  A call that raises is [inl detail]. *)

From Stdlib Require Import QArith Qabs Qround Qminmax ZArith List String Ascii Bool Lia Lqa.
From Stdlib Require Import DecimalString.
Import ListNotations.
Open Scope Q_scope.

(** ** Python idioms *)

Module Py.

(** [x < y] and [x > y] on floats. *)
Definition ltb (x y : Q) : bool := negb (Qle_bool y x).
Definition gtb (x y : Q) : bool := ltb y x.
Definition leb (x y : Q) : bool := Qle_bool x y.

(** Truth value of an optional float: [None] and [0.0] are falsy. *)
Definition truthy (o : option Q) : bool :=
  match o with
  | Some v => negb (Qeq_bool v 0)
  | None => false
  end.

(** [o or d]. *)
Definition or_else (o : option Q) (d : Q) : Q :=
  match o with
  | Some v => if Qeq_bool v 0 then d else v
  | None => d
  end.

(** [o if o is not None else d]. *)
Definition if_none (o : option Q) (d : Q) : Q :=
  match o with
  | Some v => v
  | None => d
  end.

(** [np.mean] of a list. *)
Definition mean (l : list Q) : Q :=
  fold_right Qplus 0 l / inject_Z (Z.of_nat (List.length l)).

(** [min(l)] and [max(l)] of a list (0 stands for the [ValueError] of an
    empty list, which no caller reaches). *)
Definition min_list (l : list Q) : Q :=
  match l with
  | [] => 0
  | x :: r => fold_left Qmin r x
  end.

Definition max_list (l : list Q) : Q :=
  match l with
  | [] => 0
  | x :: r => fold_left Qmax r x
  end.

(** Nearest integer, ties to even. *)
Definition round_half_even (q : Q) : Z :=
  let f := Qfloor q in
  match Qcompare (q - inject_Z f) (1 # 2) with
  | Lt => f
  | Gt => (f + 1)%Z
  | Eq => if Z.even f then f else (f + 1)%Z
  end.

(** [round(q, 2)]. *)
Definition round2 (q : Q) : Q :=
  inject_Z (round_half_even (q * 100)) / 100.

End Py.

(** ** Thresholds (module constants of the script) *)

Definition REV_GROWTH_MIN : Q := 10 # 100.
Definition EPS_GROWTH_MIN : Q := 15 # 100.
Definition PEG_MAX : Q := 2.
Definition MARKET_CAP_MIN : Q := 5000000000.
Definition UPSIDE_MIN : Q := 15 # 100.
Definition RSI_MAX : Q := 60.
Definition DRAWDOWN_MIN : Q := - 35.
Definition LONG_DTE_MONTHS : Z := 9.
Definition EPS_GROWTH_CAP : Q := 4.
Definition REV_GROWTH_CAP : Q := 2.
Definition EPS_VOLATILITY_MAX : Q := 5.

(** [clamp(v, low=0.0, high=100.0)]. *)
Definition clamp (v : Q) : Q := Qmax 0 (Qmin 100 v).

(** ** Scorer *)

(** The [metrics] dictionary handed to [score_stock]. *)
Module Metrics.
Record t := mk {
  revenue_growth : option Q;
  eps_growth : option Q;
  peg : option Q;
  market_cap : option Q;
  upside : option Q;
  rsi14 : option Q;
  drawdown_52w_pct : option Q;
  vol_ratio : option Q;
  call_spread_pct : option Q;
  iv_rank : option Q;
  required_move_for_2x_pct : option Q
}.
End Metrics.

(** The local variables of [score_stock], one field per sub-score. *)
Record SubScores := mkSubScores {
  s_rev : Q; s_eps : Q; s_peg : Q; s_mcap : Q; s_fund : Q;
  s_val : Q;
  s_rsi : Q; s_dd : Q; s_vol : Q; s_tech : Q;
  s_cat : Q;
  s_spread : Q; s_move : Q; s_iv : Q; s_opt : Q
}.

Section Scorer.

(** [math.log10]. *)
Variable log10 : Q -> Q.

Definition sub_scores (metrics : Metrics.t) : SubScores :=
  let rev := Metrics.revenue_growth metrics in
  let eps := Metrics.eps_growth metrics in
  let peg := Metrics.peg metrics in
  let mcap := Metrics.market_cap metrics in
  let upside := Metrics.upside metrics in
  let rsi := Metrics.rsi14 metrics in
  let drawdown := Metrics.drawdown_52w_pct metrics in
  let vol_ratio := Metrics.vol_ratio metrics in
  let spread := Metrics.call_spread_pct metrics in
  let iv_rank := Metrics.iv_rank metrics in
  let req_move := Metrics.required_move_for_2x_pct metrics in
  let s_rev := clamp ((Py.or_else rev 0 - (5 # 100)) / (30 # 100) * 100) in
  let s_eps := clamp ((Py.or_else eps 0 - (5 # 100)) / (40 # 100) * 100) in
  let s_peg := clamp ((2 - Py.if_none peg 2) / (15 # 10) * 100) in
  let s_mcap := clamp ((log10 (Qmax (Py.or_else mcap 1) 1) - 9) / 3 * 100) in
  let s_fund := Py.mean [s_rev; s_eps; s_peg; s_mcap] in
  let s_val := clamp ((2 - Py.if_none peg 2) / 2 * 100) in
  let s_rsi := clamp ((55 - Py.if_none rsi 60) / 25 * 100) in
  let dd := Py.if_none drawdown 0 in
  let s_dd :=
    if Py.ltb dd (- 40) then 5
    else if Py.leb (- 25) dd && Py.leb dd (- 5) then 90
    else if Py.ltb dd (- 25) then 50
    else 40 in
  let s_vol := clamp ((Py.or_else vol_ratio 1 - (8 # 10)) / (12 # 10) * 100) in
  let s_tech := Py.mean [s_rsi; s_dd; s_vol] in
  let s_cat := clamp ((Py.or_else upside 0 - (10 # 100)) / (50 # 100) * 100) in
  let s_spread := clamp ((20 - Py.if_none spread 20) / 20 * 100) in
  let s_move := clamp ((80 - Py.if_none req_move 80) / 80 * 100) in
  let s_iv :=
    match iv_rank with
    | None => 50
    | Some r => clamp (100 - Qabs (r - 35) * (22 # 10))
    end in
  let s_opt := Py.mean [s_spread; s_move; s_iv] in
  mkSubScores s_rev s_eps s_peg s_mcap s_fund s_val
              s_rsi s_dd s_vol s_tech s_cat s_spread s_move s_iv s_opt.

Definition score_stock (metrics : Metrics.t) : Q :=
  let s := sub_scores metrics in
  let final :=
    s_fund s * (25 # 100)
    + s_val s * (20 # 100)
    + s_tech s * (15 # 100)
    + s_cat s * (20 # 100)
    + s_opt s * (20 # 100) in
  Py.round2 (clamp final).

End Scorer.

(** ** Exceptions *)

(** A computation that may raise: [inl detail] is a raised exception whose
    message is [detail]. *)
Definition exn := string.
Definition result (A : Type) : Type := (exn + A)%type.

Definition ret {A : Type} (a : A) : result A := inr a.

Definition bind {A B : Type} (c : result A) (k : A -> result B) : result B :=
  match c with
  | inl e => inl e
  | inr a => k a
  end.

Notation "x <- c ;; k" := (bind c (fun x => k))
  (at level 61, c at next level, right associativity).

(** ** Metric extractor *)

(** One daily bar of [tk.history]; a NaN cell is [None]. *)
Record Bar := mkBar {
  Close : option Q;
  Volume : option Q
}.

(** The dictionary returned by [get_technical_metrics]. *)
Module Tech.
Record t := mk {
  price : option Q;
  rsi14 : option Q;
  drawdown_52w_pct : option Q;
  vol_ratio : option Q;
  vol_spike : option bool
}.
End Tech.

(** [series.iloc[-1]] followed by [safe_float]. *)
Definition iloc_last (s : list (option Q)) : option Q := last s None.

(** [series.max()]: NaN cells are skipped. *)
Definition series_max (s : list (option Q)) : option Q :=
  fold_left
    (fun acc x =>
       match acc, x with
       | None, _ => x
       | Some a, Some b => Some (Qmax a b)
       | Some _, None => acc
       end) s None.

Fixpoint all_present (s : list (option Q)) : option (list Q) :=
  match s with
  | [] => Some []
  | None :: _ => None
  | Some v :: r =>
      match all_present r with
      | Some vs => Some (v :: vs)
      | None => None
      end
  end.

(** [series.rolling(w).mean().iloc[-1]]: the mean of the last [w] cells,
    NaN when fewer than [w] cells exist or one of them is NaN. *)
Definition rolling_mean_last (w : nat) (s : list (option Q)) : option Q :=
  if (List.length s <? w)%nat then None
  else
    match all_present (skipn (List.length s - w) s) with
    | Some vs => Some (Py.mean vs)
    | None => None
    end.

Section Extractor.

(** [RSIIndicator(close=close, window=w).rsi().iloc[-1]] through
    [safe_float]; the indicator of the [ta] package is a collaborator. *)
Variable rsi_last : list (option Q) -> nat -> option Q.

Definition get_technical_metrics (hist : option (list Bar)) : Tech.t :=
  match hist with
  | None => Tech.mk None None None None None
  | Some bars =>
      if (List.length bars <? 30)%nat then Tech.mk None None None None None
      else
        let close := map Close bars in
        let volume := map Volume bars in
        let price := iloc_last close in
        let rsi14 := rsi_last close 14%nat in
        let high_52w := series_max close in
        let drawdown_52w_pct :=
          match price, high_52w with
          | Some p, Some h =>
              if Py.truthy high_52w && Py.gtb h 0
              then Some ((p / h - 1) * 100)
              else None
          | _, _ => None
          end in
        let v20 := rolling_mean_last 20 volume in
        let v0 := iloc_last volume in
        let vol_ratio :=
          match v20, v0 with
          | Some m, Some v =>
              if Py.truthy v20 && Py.gtb m 0 then Some (v / m) else None
          | _, _ => None
          end in
        let vol_spike :=
          match vol_ratio with
          | Some r => Some (Py.gtb r (15 # 10))
          | None => None
          end in
        Tech.mk price rsi14 drawdown_52w_pct vol_ratio vol_spike
  end.

End Extractor.

(** ** Option selector *)

(** One row of [chain.calls]; a NaN cell is [None]. *)
Module Row.
Record t := mk {
  strike : option Q;
  openInterest : option Q;
  bid : option Q;
  ask : option Q;
  impliedVolatility : option Q
}.
End Row.

(** The column [calls["dist"] = (calls["strike"] - spot).abs()]: NaN where
    the strike is. *)
Definition dist (spot : Q) (c : Row.t) : option Q :=
  match Row.strike c with
  | Some k => Some (Qabs (k - spot))
  | None => None
  end.

(** The order of one sort key of [sort_values]: by value in the direction
    asked for, NaN cells last in either direction. *)
Definition key_ltb (ascending : bool) (a b : option Q) : bool :=
  match a, b with
  | Some x, Some y => if ascending then Py.ltb x y else Py.ltb y x
  | Some _, None => true
  | None, _ => false
  end.

Definition key_eqb (a b : option Q) : bool :=
  match a, b with
  | Some x, Some y => Qeq_bool x y
  | None, None => true
  | _, _ => false
  end.

(** [calls.sort_values(["dist", "openInterest"], ascending=[True, False])]:
    a stable sort, smaller distance first and, at equal distance, larger open
    interest first. *)
Definition row_before (spot : Q) (a b : Row.t) : bool :=
  let da := dist spot a in
  let db := dist spot b in
  key_ltb true da db
  || (key_eqb da db
      && (key_ltb false (Row.openInterest a) (Row.openInterest b)
          || key_eqb (Row.openInterest a) (Row.openInterest b))).

(** [a] is not placed after [b] by the open-interest key: its open interest
    is at least that of [b], a NaN counting least. *)
Definition oi_not_after (a b : Row.t) : Prop :=
  match Row.openInterest a, Row.openInterest b with
  | Some x, Some y => y <= x
  | Some _, None => True
  | None, Some _ => False
  | None, None => True
  end.

Fixpoint insert_by {A : Type} (le : A -> A -> bool) (x : A) (l : list A) : list A :=
  match l with
  | [] => [x]
  | y :: r => if le x y then x :: y :: r else y :: insert_by le x r
  end.

Definition sort_by {A : Type} (le : A -> A -> bool) (l : list A) : list A :=
  fold_right (insert_by le) [] l.

Definition pick_atm_call (calls : list Row.t) (spot : option Q) : option Row.t :=
  match calls, spot with
  | [], _ => None
  | _, None => None
  | _, Some s => hd_error (sort_by (row_before s) calls)
  end.

(** The dictionary returned by [get_option_metrics]. *)
Module Opt.
Record t := mk {
  layer3_pass : bool;
  reason : string;
  expiry : option string;
  strike : option Q;
  bid : option Q;
  ask : option Q;
  spread_pct : option Q;
  iv_rank : option Q;
  required_move_for_2x_pct : option Q
}.

(** The shape of every failing return. *)
Definition failed (why : string) : t :=
  mk false why None None None None None None None.
End Opt.

(** The handle [yf.Ticker(ticker)].  [info] is the dictionary [tk.info] with
    every key the script reads already passed through [safe_float]. *)
Record Info := mkInfo {
  revenueGrowth : option Q;
  earningsGrowth : option Q;
  trailingEps : option Q;
  forwardEps : option Q;
  pegRatio : option Q;
  trailingPegRatio : option Q;
  sharesOutstanding : option Q;
  floatShares : option Q;
  marketCap : option Q;
  targetMeanPrice : option Q;
  targetMedianPrice : option Q
}.

Record Ticker := mkTicker {
  info : result Info;
  history : result (option (list Bar));
  (** the column [tk.quarterly_earnings["Reported EPS"]] *)
  quarterly_earnings : result (option (list (option Q)));
  options : result (list string);
  option_chain : string -> result (list Row.t)
}.

Definition string_of_Z (z : Z) : string := NilZero.string_of_int (Z.to_int z).

Section Selector.

(** [datetime.strptime(d, "%Y-%m-%d").date()] as a day number, [None] when
    it raises; [datetime.now().date()] as a day number. *)
Variable strptime : string -> option Z.
Variable today : Z.

(** Lines 236-243: the expirations strictly after the cutoff. *)
Fixpoint valid_expiries_of (cutoff : Z) (options : list string) : list (string * Z) :=
  match options with
  | [] => []
  | d :: rest =>
      match strptime d with
      | Some dd =>
          if (cutoff <? dd)%Z then (d, dd) :: valid_expiries_of cutoff rest
          else valid_expiries_of cutoff rest
      | None => valid_expiries_of cutoff rest
      end
  end.

Definition by_date (a b : string * Z) : bool := (snd a <=? snd b)%Z.

(** Lines 264-277: the loop over every eligible expiration. *)
Fixpoint collect_atm (tk : Ticker) (spot : Q) (preferred_expiry : string)
         (valid_expiries : list (string * Z))
         (atm_ivs : list Q) (chosen_call : option Row.t)
  : list Q * option Row.t :=
  match valid_expiries with
  | [] => (atm_ivs, chosen_call)
  | (expiry, _) :: rest =>
      match option_chain tk expiry with
      | inl _ => collect_atm tk spot preferred_expiry rest atm_ivs chosen_call
      | inr calls =>
          match pick_atm_call calls (Some spot) with
          | Some atm =>
              let atm_ivs' :=
                match Row.impliedVolatility atm with
                | Some iv => if Py.gtb iv 0 then atm_ivs ++ [iv] else atm_ivs
                | None => atm_ivs
                end in
              let chosen_call' :=
                if String.eqb expiry preferred_expiry then Some atm else chosen_call in
              collect_atm tk spot preferred_expiry rest atm_ivs' chosen_call'
          | None => collect_atm tk spot preferred_expiry rest atm_ivs chosen_call
          end
      end
  end.

(** Lines 280-290: the first eligible expiration with an ATM call. *)
Fixpoint fallback_call (tk : Ticker) (spot : Q) (valid_expiries : list (string * Z))
  : option (string * Row.t) :=
  match valid_expiries with
  | [] => None
  | (expiry, _) :: rest =>
      match option_chain tk expiry with
      | inl _ => fallback_call tk spot rest
      | inr calls =>
          match pick_atm_call calls (Some spot) with
          | Some atm => Some (expiry, atm)
          | None => fallback_call tk spot rest
          end
      end
  end.

(** Lines 305-342: the metrics of the chosen contract. *)
Definition quote_metrics (spot : Q) (preferred_expiry : string)
           (chosen_call : Row.t) (atm_ivs : list Q) : Opt.t :=
  let strike := Row.strike chosen_call in
  let bid := Row.bid chosen_call in
  let ask := Row.ask chosen_call in
  let iv_now := Row.impliedVolatility chosen_call in
  let premium :=
    match bid, ask with
    | Some b, Some a => if Py.gtb a 0 then Some ((b + a) / 2) else None
    | _, _ => None
    end in
  let spread_pct :=
    match bid, ask, premium with
    | Some b, Some a, Some mid =>
        if Py.gtb mid 0 then Some ((a - b) / mid * 100) else None
    | _, _, _ => None
    end in
  let iv_rank :=
    match iv_now with
    | Some iv =>
        if (2 <=? List.length atm_ivs)%nat then
          let iv_min := Py.min_list atm_ivs in
          let iv_max := Py.max_list atm_ivs in
          if Py.gtb iv_max iv_min
          then Some (clamp ((iv - iv_min) / (iv_max - iv_min) * 100))
          else None
        else None
    | None => None
    end in
  let required_move_for_2x_pct :=
    match strike, premium with
    | Some k, Some p =>
        if Py.truthy (Some spot) && Py.gtb spot 0 then
          let spot_for_2x := k + 2 * p in
          Some ((spot_for_2x / spot - 1) * 100)
        else None
    | _, _ => None
    end in
  Opt.mk true "OK" (Some preferred_expiry) strike bid ask
         spread_pct iv_rank required_move_for_2x_pct.

(** Lines 234-258: the eligible expirations, earliest first. *)
Definition eligible_expiries (options : list string) (min_months : Z)
  : list (string * Z) :=
  let cutoff := (today + min_months * 30)%Z in
  sort_by by_date (valid_expiries_of cutoff options).

(** Lines 259-290: the implied volatilities observed over the eligible
    expirations, and the contract finally chosen with its expiration. *)
Definition select_contract (tk : Ticker) (spot : Q)
           (valid_expiries : list (string * Z))
  : list Q * option (string * Row.t) :=
  match valid_expiries with
  | [] => ([], None)
  | (preferred_expiry, _) :: _ =>
      let '(atm_ivs, chosen_call) :=
        collect_atm tk spot preferred_expiry valid_expiries [] None in
      match chosen_call with
      | Some atm => (atm_ivs, Some (preferred_expiry, atm))
      | None => (atm_ivs, fallback_call tk spot valid_expiries)
      end
  end.

Definition get_option_metrics (tk : Ticker) (spot : Q) (min_months : Z)
  : result Opt.t :=
  options <- options tk ;;
  match options with
  | [] => ret (Opt.failed "无可用期权链")
  | _ :: _ =>
      let valid_expiries := eligible_expiries options min_months in
      match valid_expiries with
      | [] => ret (Opt.failed ("无>" ++ string_of_Z min_months ++ "个月到期期权"))
      | _ :: _ =>
          let '(atm_ivs, chosen) := select_contract tk spot valid_expiries in
          match chosen with
          | None => ret (Opt.failed "长期期权存在但无可用ATM Call")
          | Some (preferred_expiry, chosen_call) =>
              ret (quote_metrics spot preferred_expiry chosen_call atm_ivs)
          end
      end
  end.

End Selector.

(** The ATM call one eligible expiration yields, if its chain can be fetched
    and holds a contract (the body of the [try] in both loops). *)
Definition atm_of (tk : Ticker) (spot : Q) (expiry : string) : option Row.t :=
  match option_chain tk expiry with
  | inl _ => None
  | inr calls => pick_atm_call calls (Some spot)
  end.

(** [iv] is a positive ATM implied volatility seen at one of the expirations. *)
Definition observed_iv (tk : Ticker) (spot : Q)
           (valid_expiries : list (string * Z)) (iv : Q) : Prop :=
  exists expiry dd atm,
    In (expiry, dd) valid_expiries
    /\ atm_of tk spot expiry = Some atm
    /\ Row.impliedVolatility atm = Some iv
    /\ 0 < iv.

(** Some eligible expiration has a chain with at least one call. *)
Definition has_contract (tk : Ticker) (valid_expiries : list (string * Z)) : Prop :=
  exists expiry dd calls,
    In (expiry, dd) valid_expiries
    /\ option_chain tk expiry = inr calls
    /\ calls <> [].

(** ** Funnel *)

(** The anomaly descriptions appended to [sanity_flags].  The script formats
    each as a sentence around the offending values; the values are kept. *)
Inductive SanityFlag : Type :=
| ShareStructureFlag                        (* 股份结构异常（总股本远大于流通股） *)
| RevenueGrowthFlag (rev_growth : Q)        (* 收入增速异常高(..%)，疑似并购/一次性 *)
| QuarterlyEpsGrowthFlag (eps_growth : Q)   (* 季度EPS增速异常(..%)，疑似一次性因素 *)
| ForwardEpsGrowthFlag (eps_growth_forward : Q) (* Forward EPS增速异常(..%) *)
| LowBaseFlag (trailing_eps forward_eps : Q)    (* TTM EPS极低而Forward高，低基数效应 *)
| PegFlag (peg : Q)                         (* PEG异常低(..)，可能是增速数据失真 *)
| EpsVolatilityFlag (eps_vals : list Q).    (* 季度EPS波动极大(CV=..)，盈利不稳定 *)

Definition is_peg_flag (f : SanityFlag) : bool :=
  match f with
  | PegFlag _ => true
  | _ => false
  end.

Record StockResult := mkStockResult {
  ticker : string;
  score : Q;
  layer1_pass : bool;
  layer2_pass : bool;
  layer3_pass : bool;
  reason : string;
  current_price : option Q;
  revenue_growth : option Q;
  eps_growth : option Q;
  eps_growth_forward : option Q;
  trailing_eps : option Q;
  forward_eps : option Q;
  peg : option Q;
  market_cap : option Q;
  upside : option Q;
  rsi14 : option Q;
  drawdown_52w_pct : option Q;
  vol_spike : option bool;
  vol_ratio : option Q;
  leap_expiry : option string;
  leap_strike : option Q;
  call_bid : option Q;
  call_ask : option Q;
  call_spread_pct : option Q;
  iv_rank : option Q;
  required_move_for_2x_pct : option Q;
  sanity_flags : option (list SanityFlag)
}.

(** The local variables of [analyze_ticker] once the sanity checks, the PEG
    fallback and the upside computation have run (lines 427-493). *)
Module Ev.
Record t := mk {
  price : option Q;
  rev_growth : option Q;
  eps_growth : option Q;
  eps_growth_forward : option Q;
  trailing_eps : option Q;
  forward_eps : option Q;
  peg : option Q;
  market_cap : option Q;
  upside : option Q;
  sanity_flags : list SanityFlag
}.
End Ev.

Fixpoint dropna (s : list (option Q)) : list Q :=
  match s with
  | [] => []
  | Some v :: r => v :: dropna r
  | None :: r => dropna r
  end.

(** [np.std(vals) ** 2]: the population variance. *)
Definition variance (vals : list Q) : Q :=
  let mu := Py.mean vals in
  Py.mean (map (fun v => (v - mu) * (v - mu)) vals).

(** Lines 472-483.  With [eps_mean > 0], the test
    [eps_std / eps_mean > EPS_VOLATILITY_MAX] on the non-negative [eps_std]
    is the test on squares written here. *)
Definition eps_volatility_check (qe : result (option (list (option Q))))
           (sanity_flags : list SanityFlag) : list SanityFlag :=
  match qe with
  | inr (Some col) =>
      if (4 <=? List.length col)%nat then
        let vals := dropna col in
        let eps_vals := skipn (List.length vals - 4) vals in
        if (4 <=? List.length eps_vals)%nat then
          let eps_mean := Py.mean (map Qabs eps_vals) in
          if Py.gtb eps_mean 0
             && Py.gtb (variance eps_vals)
                       ((EPS_VOLATILITY_MAX * eps_mean) * (EPS_VOLATILITY_MAX * eps_mean))
          then sanity_flags ++ [EpsVolatilityFlag eps_vals]
          else sanity_flags
        else sanity_flags
      else sanity_flags
  | _ => sanity_flags
  end.

(** Lines 427-493 of [analyze_ticker]. *)
Definition evidence (info : Info) (tech : Tech.t)
           (qe : result (option (list (option Q)))) : Ev.t :=
  let price := Tech.price tech in
  let rev_growth := revenueGrowth info in
  let eps_growth := earningsGrowth info in
  let trailing_eps := trailingEps info in
  let forward_eps := forwardEps info in
  let eps_growth_forward :=
    match trailing_eps, forward_eps with
    | Some t, Some f =>
        if Py.gtb (Qabs t) (1 # 100) then Some ((f - t) / Qabs t) else None
    | _, _ => None
    end in
  let peg := pegRatio info in
  let sanity_flags : list SanityFlag := [] in
  (* check 1 *)
  let shares_outstanding := sharesOutstanding info in
  let float_shares := floatShares info in
  let sanity_flags :=
    match shares_outstanding, float_shares with
    | Some so, Some fs =>
        if Py.truthy shares_outstanding && Py.truthy float_shares
           && Py.gtb fs 0 && Py.gtb (so / fs) (13 # 10)
        then sanity_flags ++ [ShareStructureFlag]
        else sanity_flags
    | _, _ => sanity_flags
    end in
  (* check 2 *)
  let '(sanity_flags, rev_growth) :=
    match rev_growth with
    | Some r =>
        if Py.gtb r REV_GROWTH_CAP
        then (sanity_flags ++ [RevenueGrowthFlag r], None)
        else (sanity_flags, rev_growth)
    | None => (sanity_flags, rev_growth)
    end in
  (* check 3 *)
  let '(sanity_flags, eps_growth) :=
    match eps_growth with
    | Some g =>
        if Py.gtb (Qabs g) EPS_GROWTH_CAP
        then (sanity_flags ++ [QuarterlyEpsGrowthFlag g], None)
        else (sanity_flags, eps_growth)
    | None => (sanity_flags, eps_growth)
    end in
  let '(sanity_flags, eps_growth_forward) :=
    match eps_growth_forward with
    | Some g =>
        if Py.gtb (Qabs g) EPS_GROWTH_CAP
        then (sanity_flags ++ [ForwardEpsGrowthFlag g], None)
        else (sanity_flags, eps_growth_forward)
    | None => (sanity_flags, eps_growth_forward)
    end in
  (* check 4 *)
  let '(sanity_flags, eps_growth_forward) :=
    match trailing_eps, forward_eps with
    | Some t, Some f =>
        if Py.ltb (Qabs t) (50 # 100) && Py.gtb f 5
        then (sanity_flags ++ [LowBaseFlag t f], None)
        else (sanity_flags, eps_growth_forward)
    | _, _ => (sanity_flags, eps_growth_forward)
    end in
  (* check 5 *)
  let sanity_flags :=
    match peg with
    | Some p =>
        if Py.ltb p (2 # 10) then sanity_flags ++ [PegFlag p] else sanity_flags
    | None => sanity_flags
    end in
  (* check 6 *)
  let sanity_flags := eps_volatility_check qe sanity_flags in
  let peg :=
    match peg with
    | None => trailingPegRatio info
    | Some _ => peg
    end in
  let market_cap := marketCap info in
  let target_price :=
    match targetMeanPrice info with
    | None => targetMedianPrice info
    | Some tp => Some tp
    end in
  let upside :=
    match target_price, price with
    | Some tp, Some p => if Py.gtb p 0 then Some (tp / p - 1) else None
    | _, _ => None
    end in
  Ev.mk price rev_growth eps_growth eps_growth_forward trailing_eps forward_eps
        peg market_cap upside sanity_flags.

(** [o is not None and o > bound]. *)
Definition present_gt (o : option Q) (bound : Q) : bool :=
  match o with
  | Some v => Py.gtb v bound
  | None => false
  end.

(** [o is not None and o < bound]. *)
Definition present_lt (o : option Q) (bound : Q) : bool :=
  match o with
  | Some v => Py.ltb v bound
  | None => false
  end.

(** The five clauses of Layer 1 (lines 497-507). *)
Definition revenue_clause (ev : Ev.t) : bool := present_gt (Ev.rev_growth ev) REV_GROWTH_MIN.
Definition eps_pass (ev : Ev.t) : bool :=
  present_gt (Ev.eps_growth ev) EPS_GROWTH_MIN
  || present_gt (Ev.eps_growth_forward ev) EPS_GROWTH_MIN.
Definition peg_clause (ev : Ev.t) : bool := present_lt (Ev.peg ev) PEG_MAX.
Definition market_cap_clause (ev : Ev.t) : bool := present_gt (Ev.market_cap ev) MARKET_CAP_MIN.
Definition upside_clause (ev : Ev.t) : bool := present_gt (Ev.upside ev) UPSIDE_MIN.

Definition layer1 (ev : Ev.t) : bool :=
  forallb (fun b : bool => b)
    [revenue_clause ev; eps_pass ev; peg_clause ev; market_cap_clause ev; upside_clause ev].

(** Lines 534-543. *)
Definition layer2 (tech : Tech.t) (require_volume_spike : bool) : bool :=
  let l2 := present_lt (Tech.rsi14 tech) RSI_MAX
            && present_gt (Tech.drawdown_52w_pct tech) DRAWDOWN_MIN in
  if require_volume_spike
  then l2 && match Tech.vol_spike tech with Some b => b | None => false end
  else l2.

(** Lines 599-602. *)
Definition best_eps_growth (ev : Ev.t) : option Q :=
  match Ev.eps_growth_forward ev with
  | Some f =>
      match Ev.eps_growth ev with
      | None => Some f
      | Some g => if Py.gtb f g then Some f else Some g
      end
  | None => Ev.eps_growth ev
  end.

(** Lines 604-616. *)
Definition metrics_of (ev : Ev.t) (tech : Tech.t) (opt : Opt.t) : Metrics.t :=
  Metrics.mk (Ev.rev_growth ev) (best_eps_growth ev) (Ev.peg ev)
             (Ev.market_cap ev) (Ev.upside ev)
             (Tech.rsi14 tech) (Tech.drawdown_52w_pct tech) (Tech.vol_ratio tech)
             (Opt.spread_pct opt) (Opt.iv_rank opt) (Opt.required_move_for_2x_pct opt).

(** [sanity_flags if sanity_flags else None]. *)
Definition flags_or_none (sanity_flags : list SanityFlag) : option (list SanityFlag) :=
  match sanity_flags with
  | [] => None
  | _ :: _ => Some sanity_flags
  end.

(** A result that stopped at a layer: evidence kept, option fields left at
    their defaults. *)
Definition stopped (ticker : string) (l1 l2 : bool) (reason : string)
           (ev : Ev.t) (tech : Tech.t) : StockResult :=
  mkStockResult ticker 0 l1 l2 false reason
    (Ev.price ev) (Ev.rev_growth ev) (Ev.eps_growth ev) (Ev.eps_growth_forward ev)
    (Ev.trailing_eps ev) (Ev.forward_eps ev) (Ev.peg ev) (Ev.market_cap ev)
    (Ev.upside ev)
    (Tech.rsi14 tech) (Tech.drawdown_52w_pct tech) (Tech.vol_spike tech)
    (Tech.vol_ratio tech)
    None None None None None None None
    (flags_or_none (Ev.sanity_flags ev)).

(** Lines 619-647. *)
Definition passed (ticker : string) (score : Q)
           (ev : Ev.t) (tech : Tech.t) (opt : Opt.t) : StockResult :=
  mkStockResult ticker score true true true "通过全部筛选"
    (Ev.price ev) (Ev.rev_growth ev) (Ev.eps_growth ev) (Ev.eps_growth_forward ev)
    (Ev.trailing_eps ev) (Ev.forward_eps ev) (Ev.peg ev) (Ev.market_cap ev)
    (Ev.upside ev)
    (Tech.rsi14 tech) (Tech.drawdown_52w_pct tech) (Tech.vol_spike tech)
    (Tech.vol_ratio tech)
    (Opt.expiry opt) (Opt.strike opt) (Opt.bid opt) (Opt.ask opt)
    (Opt.spread_pct opt) (Opt.iv_rank opt) (Opt.required_move_for_2x_pct opt)
    (flags_or_none (Ev.sanity_flags ev)).

(** Lines 649-657: the [except] branch. *)
Definition processing_failed (ticker : string) (e : exn) : StockResult :=
  mkStockResult ticker 0 false false false ("处理失败：" ++ e)
    None None None None None None None None None None None None None
    None None None None None None None None.

(** The collaborators of one run. *)
Record Collaborators := mkCollaborators {
  (** [math.log10] *)
  log10 : Q -> Q;
  (** the last RSI value, see [get_technical_metrics] *)
  rsi_last : list (option Q) -> nat -> option Q;
  (** [datetime.strptime(d, "%Y-%m-%d").date()] and [datetime.now().date()] *)
  strptime : string -> option Z;
  today : Z;
  (** [ticker.upper().strip()] *)
  upper_strip : string -> string;
  (** [yf.Ticker] *)
  yf_Ticker : string -> result Ticker
}.

Section Funnel.

Variable w : Collaborators.

(** Lines 425-647: the three layers, once the handle, [tk.info] and the
    price history are at hand. *)
Definition layers (ticker : string) (require_volume_spike : bool)
           (tk : Ticker) (info : Info) (hist : option (list Bar))
  : result StockResult :=
  let tech := get_technical_metrics (rsi_last w) hist in
  let ev := evidence info tech (quarterly_earnings tk) in
  if negb (layer1 ev) then
    ret (stopped ticker false false "未通过 Layer 1 基本面筛选" ev tech)
  else if negb (layer2 tech require_volume_spike) then
    ret (stopped ticker true false "未通过 Layer 2 技术面筛选" ev tech)
  else
    opt <- get_option_metrics (strptime w) (today w) tk
             (Py.or_else (Ev.price ev) 0) LONG_DTE_MONTHS ;;
    if negb (Opt.layer3_pass opt) then
      ret (stopped ticker true true
                   ("未通过 Layer 3 期权筛选：" ++ Opt.reason opt) ev tech)
    else
      let score := score_stock (log10 w) (metrics_of ev tech opt) in
      ret (passed ticker score ev tech opt).

(** The [try] block of [analyze_ticker]. *)
Definition analyze_body (ticker : string) (require_volume_spike : bool)
  : result StockResult :=
  tk <- yf_Ticker w ticker ;;
  info <- info tk ;;
  hist <- history tk ;;
  layers ticker require_volume_spike tk info hist.

Definition analyze_ticker (ticker : string) (require_volume_spike : bool)
  : StockResult :=
  let ticker := upper_strip w ticker in
  match analyze_body ticker require_volume_spike with
  | inr r => r
  | inl e => processing_failed ticker e
  end.

(** The loop of [main] (lines 800-805). *)
Definition scan (universe : list string) (require_volume_spike : bool)
  : list StockResult :=
  fold_left
    (fun results t => results ++ [analyze_ticker t require_volume_spike])
    universe [].

End Funnel.

(** The exception, if any, raised while the raw data of a ticker is fetched
    (lines 418-424). *)
Definition retrieval_error (w : Collaborators) (ticker : string) : option exn :=
  match yf_Ticker w ticker with
  | inl e => Some e
  | inr tk =>
      match info tk with
      | inl e => Some e
      | inr _ =>
          match history tk with
          | inl e => Some e
          | inr _ => None
          end
      end
  end.

(** ** Report selection

    The selections and counters of [build_report] (lines 693-699 and
    749-751); the rendering of the chosen records to text is not modelled. *)

Definition all_layers (r : StockResult) : bool :=
  layer1_pass r && layer2_pass r && layer3_pass r.

(** Truth value of [r.sanity_flags]: [None] and the empty list are falsy. *)
Definition has_flags (r : StockResult) : bool :=
  match sanity_flags r with
  | Some (_ :: _) => true
  | _ => false
  end.

(** [sorted(rs, key=lambda x: x.score, reverse=True)]: a stable sort, higher
    score first. *)
Definition by_score_desc (a b : StockResult) : bool := Py.leb (score b) (score a).

Definition report_passed (results : list StockResult) : list StockResult :=
  filter all_layers results.

Definition report_clean (results : list StockResult) : list StockResult :=
  filter (fun r => negb (has_flags r)) (report_passed results).

Definition report_flagged (results : list StockResult) : list StockResult :=
  filter has_flags (report_passed results).

Definition clean_sorted (results : list StockResult) : list StockResult :=
  sort_by by_score_desc (report_clean results).

Definition flagged_sorted (results : list StockResult) : list StockResult :=
  sort_by by_score_desc (report_flagged results).

(** [clean_sorted[:top_n]], for the non-negative [top_n] that [main] passes. *)
Definition top_clean (results : list StockResult) (top_n : nat) : list StockResult :=
  firstn top_n (clean_sorted results).

(** [sum(1 for r in results if cond(r))]. *)
Definition count_if (cond : StockResult -> bool) (results : list StockResult) : nat :=
  List.length (filter cond results).

Definition l1_fail (results : list StockResult) : nat :=
  count_if (fun r => negb (layer1_pass r)) results.

Definition l2_fail (results : list StockResult) : nat :=
  count_if (fun r => layer1_pass r && negb (layer2_pass r)) results.

Definition l3_fail (results : list StockResult) : nat :=
  count_if (fun r => layer1_pass r && layer2_pass r && negb (layer3_pass r)) results.

(** [r] reports the evidence [ev] and the technical metrics [tech]. *)
Definition carries (r : StockResult) (ev : Ev.t) (tech : Tech.t) : Prop :=
  current_price r = Ev.price ev
  /\ revenue_growth r = Ev.rev_growth ev
  /\ eps_growth r = Ev.eps_growth ev
  /\ eps_growth_forward r = Ev.eps_growth_forward ev
  /\ trailing_eps r = Ev.trailing_eps ev
  /\ forward_eps r = Ev.forward_eps ev
  /\ peg r = Ev.peg ev
  /\ market_cap r = Ev.market_cap ev
  /\ upside r = Ev.upside ev
  /\ rsi14 r = Tech.rsi14 tech
  /\ drawdown_52w_pct r = Tech.drawdown_52w_pct tech
  /\ vol_spike r = Tech.vol_spike tech
  /\ vol_ratio r = Tech.vol_ratio tech
  /\ sanity_flags r = flags_or_none (Ev.sanity_flags ev).

(** The [metrics] dictionary rebuilt from the fields a result reports, with
    the better of its two EPS growths (lines 599-616). *)
Definition metrics_of_result (r : StockResult) : Metrics.t :=
  Metrics.mk (revenue_growth r)
    (match eps_growth_forward r with
     | Some f =>
         match eps_growth r with
         | None => Some f
         | Some g => if Py.gtb f g then Some f else Some g
         end
     | None => eps_growth r
     end)
    (peg r) (market_cap r) (upside r) (rsi14 r) (drawdown_52w_pct r) (vol_ratio r)
    (call_spread_pct r) (iv_rank r) (required_move_for_2x_pct r).

(** ** Sample collaborators and inputs

    Concrete stand-ins for the collaborators, used to run the model. *)

Module Sample.

(** A step approximation of [math.log10] through the binary logarithm. *)
Definition log10 (q : Q) : Q :=
  inject_Z (Z.log2 (Qfloor q)) * (30103 # 100000).

Definition rsi_last (close : list (option Q)) (window : nat) : option Q :=
  match close with
  | [] => None
  | _ :: _ => Some 45
  end.

Definition digit (c : ascii) : option Z :=
  let n := nat_of_ascii c in
  if ((48 <=? n) && (n <=? 57))%nat then Some (Z.of_nat (n - 48)) else None.

Fixpoint number (acc : Z) (cs : list ascii) : option Z :=
  match cs with
  | [] => Some acc
  | c :: r =>
      match digit c with
      | Some d => number (acc * 10 + d)%Z r
      | None => None
      end
  end.

(** Days since 1970-01-01 of a calendar date. *)
Definition days_from_civil (y m d : Z) : Z :=
  let y' := if (m <=? 2)%Z then (y - 1)%Z else y in
  let era := (y' / 400)%Z in
  let yoe := (y' - era * 400)%Z in
  let mp := ((m + 9) mod 12)%Z in
  let doy := ((153 * mp + 2) / 5 + d - 1)%Z in
  let doe := (yoe * 365 + yoe / 4 - yoe / 100 + doy)%Z in
  (era * 146097 + doe - 719468)%Z.

(** Dates written [YYYY-MM-DD]. *)
Definition strptime (s : string) : option Z :=
  match list_ascii_of_string s with
  | [y1; y2; y3; y4; "-"%char; m1; m2; "-"%char; d1; d2] =>
      match number 0 [y1; y2; y3; y4], number 0 [m1; m2], number 0 [d1; d2] with
      | Some y, Some m, Some d =>
          if ((1 <=? m) && (m <=? 12) && (1 <=? d) && (d <=? 31))%Z
          then Some (days_from_civil y m d)
          else None
      | _, _, _ => None
      end
  | _ => None
  end.

Definition today : Z := days_from_civil 2026 1 5.

(** Tickers are given upper-case and without blanks. *)
Definition upper_strip (s : string) : string := s.

Definition world (yf_Ticker : string -> result Ticker) : Collaborators :=
  mkCollaborators log10 rsi_last strptime today upper_strip yf_Ticker.

Definition no_metrics : Metrics.t :=
  Metrics.mk None None None None None None None None None None None.

Definition with_drawdown (dd : Q) : Metrics.t :=
  Metrics.mk None None None None None None (Some dd) None None None None.

Definition with_vol_ratio (r : option Q) : Metrics.t :=
  Metrics.mk None None None None None None None r None None None.

(** Thirty daily bars: one close at [high], then 29 closes at [last], with a
    flat volume. *)
Definition bars (high last : Q) : list Bar :=
  mkBar (Some high) (Some 1000000)
  :: repeat (mkBar (Some last) (Some 1000000)) 29.

(** Fundamentals that pass Layer 1 at a price of 100. *)
Definition good_info : Info :=
  mkInfo (Some (45 # 100)) None (Some 5) (Some 6) (Some (12 # 10)) None
         None None (Some 50000000000) (Some 118) None.

(** Revenue growth reported as 250%. *)
Definition merger_info : Info :=
  mkInfo (Some (250 # 100)) None (Some 5) (Some 6) (Some (12 # 10)) None
         None None (Some 50000000000) (Some 118) None.

(** No primary PEG, a trailing PEG of 0.1. *)
Definition trailing_peg_info : Info :=
  mkInfo (Some (45 # 100)) None (Some 5) (Some 6) None (Some (1 # 10))
         None None (Some 50000000000) (Some 118) None.

Definition listing : list string :=
  ["2026-06-19"; "2027-06-18"; "2027-01-15"; "2028-01-21"]%string.

Definition no_chain : result (list Row.t) := inl "no chain"%string.

Definition good_chain (expiry : string) : result (list Row.t) :=
  if String.eqb expiry "2027-01-15" then
    inr [Row.mk (Some 95) (Some 10) (Some 12) (Some 13) (Some (45 # 100));
         Row.mk (Some 105) (Some 40) (Some 8) (Some 9) (Some (40 # 100))]
  else if String.eqb expiry "2027-06-18" then
    inr [Row.mk (Some 100) (Some 5) (Some 10) (Some 11) (Some (30 # 100))]
  else if String.eqb expiry "2028-01-21" then
    inr [Row.mk (Some 100) (Some 5) (Some 14) (Some 16) (Some (50 # 100))]
  else no_chain.

(** One long-dated contract, without any quote. *)
Definition unquoted_chain (expiry : string) : result (list Row.t) :=
  if String.eqb expiry "2027-01-15" then inr [Row.mk (Some 100) (Some 0) None None None]
  else no_chain.

(** The contract of the earliest eligible expiration has no implied
    volatility; the two later expirations have 0.30 and 0.50. *)
Definition no_iv_chain (expiry : string) : result (list Row.t) :=
  if String.eqb expiry "2027-01-15" then
    inr [Row.mk (Some 100) (Some 5) (Some 8) (Some 9) None]
  else good_chain expiry.

(** A contract quoted 0 / 0. *)
Definition zero_ask_chain (expiry : string) : result (list Row.t) :=
  if String.eqb expiry "2027-01-15" then
    inr [Row.mk (Some 105) (Some 0) (Some 0) (Some 0) (Some (40 # 100))]
  else no_chain.

Definition ticker_with (i : Info) (hist : list Bar)
           (chain : string -> result (list Row.t)) : Ticker :=
  mkTicker (inr i) (inr (Some hist)) (inr None) (inr listing) chain.

Definition good : Ticker := ticker_with good_info (bars 125 100) good_chain.
Definition no_history : Ticker := ticker_with good_info [] good_chain.
Definition merger : Ticker := ticker_with merger_info (bars 125 100) good_chain.
Definition trailing_peg : Ticker :=
  ticker_with trailing_peg_info (bars 125 100) good_chain.
Definition unquoted : Ticker := ticker_with good_info (bars 125 100) unquoted_chain.
Definition no_iv : Ticker := ticker_with good_info (bars 125 100) no_iv_chain.
Definition zero_ask : Ticker := ticker_with good_info (bars 125 100) zero_ask_chain.

Definition yf_Ticker (name : string) : result Ticker :=
  if String.eqb name "GOOD" then inr good
  else if String.eqb name "NOHIST" then inr no_history
  else if String.eqb name "MERGER" then inr merger
  else if String.eqb name "TPEG" then inr trailing_peg
  else if String.eqb name "UNQUOTED" then inr unquoted
  else if String.eqb name "NOIV" then inr no_iv
  else if String.eqb name "ZEROASK" then inr zero_ask
  else inl "connection reset"%string.

Definition market : Collaborators := world yf_Ticker.

(** What the selector returns for a ticker at a spot of 100. *)
Definition quote_of (tk : Ticker) : Opt.t :=
  match get_option_metrics strptime today tk 100 LONG_DTE_MONTHS with
  | inr m => m
  | inl e => Opt.failed e
  end.

Definition eligible : list (string * Z) :=
  eligible_expiries strptime today listing LONG_DTE_MONTHS.

End Sample.

(** Further inputs. *)

Module Cases.

(** The expiration listing cannot be read. *)
Definition no_listing : Ticker :=
  mkTicker (inr Sample.good_info) (inr (Some (Sample.bars 125 100))) (inr None)
           (inl "listing unavailable"%string) Sample.good_chain.

(** A primary PEG of 0.1. *)
Definition low_peg_info : Info :=
  mkInfo (Some (45 # 100)) None (Some 5) (Some 6) (Some (1 # 10)) None
         None None (Some 50000000000) (Some 118) None.

Definition low_peg : Ticker :=
  Sample.ticker_with low_peg_info (Sample.bars 125 100) Sample.good_chain.

(** Trailing EPS 0.2 and forward EPS 6; quarterly growth of 20%. *)
Definition low_base_info : Info :=
  mkInfo (Some (45 # 100)) (Some (20 # 100)) (Some (2 # 10)) (Some 6)
         (Some (12 # 10)) None None None (Some 50000000000) (Some 118) None.

Definition low_base : Ticker :=
  Sample.ticker_with low_base_info (Sample.bars 125 100) Sample.good_chain.

(** Twelve bars only. *)
Definition short_bars : list Bar := repeat (mkBar (Some 100) (Some 1000000)) 12.

Definition short_history : Ticker :=
  Sample.ticker_with Sample.good_info short_bars Sample.good_chain.

(** The earliest eligible expiration has no chain. *)
Definition late_chain (expiry : string) : result (list Row.t) :=
  if String.eqb expiry "2027-01-15" then Sample.no_chain
  else Sample.good_chain expiry.

Definition late : Ticker :=
  Sample.ticker_with Sample.good_info (Sample.bars 125 100) late_chain.

(** The strike cell of the only long-dated contract is NaN. *)
Definition strikeless_chain (expiry : string) : result (list Row.t) :=
  if String.eqb expiry "2027-01-15" then
    inr [Row.mk None (Some 10) (Some 8) (Some 9) (Some (40 # 100))]
  else Sample.no_chain.

Definition strikeless : Ticker :=
  Sample.ticker_with Sample.good_info (Sample.bars 125 100) strikeless_chain.

Definition yf_Ticker (name : string) : result Ticker :=
  if String.eqb name "NOLIST" then inr no_listing
  else if String.eqb name "LOWPEG" then inr low_peg
  else if String.eqb name "LOWBASE" then inr low_base
  else if String.eqb name "SHORT" then inr short_history
  else if String.eqb name "LATE" then inr late
  else Sample.yf_Ticker name.

Definition market : Collaborators := Sample.world yf_Ticker.

Definition universe : list string :=
  ["GOOD"; "NOHIST"; "MERGER"; "TPEG"; "LOWPEG"; "DOWN"; "NOLIST"]%string.

End Cases.

(** ** Comparisons *)

Lemma ltb_reflect (x y : Q) : reflect (x < y) (Py.ltb x y).
Proof.
  unfold Py.ltb. destruct (Qle_bool y x) eqn:E; simpl; constructor.
  - apply Qle_bool_iff in E. apply Qle_not_lt. exact E.
  - apply Qnot_le_lt. intro H. apply Qle_bool_iff in H. congruence.
Qed.

Lemma gtb_reflect (x y : Q) : reflect (y < x) (Py.gtb x y).
Proof. unfold Py.gtb. apply ltb_reflect. Qed.

Lemma leb_reflect (x y : Q) : reflect (x <= y) (Py.leb x y).
Proof.
  unfold Py.leb. destruct (Qle_bool x y) eqn:E; constructor.
  - apply Qle_bool_iff. exact E.
  - intro H. apply Qle_bool_iff in H. congruence.
Qed.

Lemma eqb_reflect (x y : Q) : reflect (x == y) (Qeq_bool x y).
Proof.
  destruct (Qeq_bool x y) eqn:E; constructor.
  - apply Qeq_bool_iff. exact E.
  - apply Qeq_bool_neq. exact E.
Qed.

(** ** The scorer's range *)

Lemma clamp_range (v : Q) : 0 <= clamp v <= 100.
Proof.
  unfold clamp. split.
  - apply Q.le_max_l.
  - apply Q.max_lub; [lra | apply Q.le_min_l].
Qed.

Lemma clamp_inside (v : Q) : 0 <= v <= 100 -> clamp v == v.
Proof.
  intros [H0 H1]. unfold clamp.
  rewrite (Q.min_r 100 v) by exact H1. apply Q.max_r. exact H0.
Qed.

Lemma clamp_below (v : Q) : v <= 0 -> clamp v == 0.
Proof.
  intros H. unfold clamp. apply Q.max_l.
  apply Qle_trans with v; [apply Q.le_min_r | exact H].
Qed.

Lemma round_half_even_range (q : Q) (lo hi : Z) :
  inject_Z lo <= q <= inject_Z hi ->
  (lo <= Py.round_half_even q <= hi)%Z.
Proof.
  intros [Hlo Hhi].
  assert (Hf : (lo <= Qfloor q)%Z).
  { rewrite <- (Qfloor_Z lo). apply Qfloor_resp_le. exact Hlo. }
  assert (Hc : (Qfloor q <= hi)%Z).
  { rewrite <- (Qfloor_Z hi). apply Qfloor_resp_le. exact Hhi. }
  assert (Hup : q - inject_Z (Qfloor q) < 1 # 2 \/ (Qfloor q + 1 <= hi)%Z).
  { destruct (Z.eq_dec (Qfloor q) hi) as [E | E]; [left | right; lia].
    assert (Hq : q == inject_Z hi).
    { apply Qle_antisym; [exact Hhi |]. rewrite <- E. apply Qfloor_le. }
    rewrite E, Hq. lra. }
  unfold Py.round_half_even.
  destruct (Qcompare_spec (q - inject_Z (Qfloor q)) (1 # 2)) as [E | E | E].
  - destruct Hup as [Hup | Hup]; [lra |].
    destruct (Z.even (Qfloor q)); lia.
  - lia.
  - destruct Hup as [Hup | Hup]; [lra | lia].
Qed.

Lemma round2_range (q : Q) : 0 <= q <= 100 -> 0 <= Py.round2 q <= 100.
Proof.
  intros [H0 H1].
  assert (H : (0 <= Py.round_half_even (q * 100) <= 10000)%Z).
  { apply round_half_even_range. unfold inject_Z. split; lra. }
  destruct H as [Ha Hb]. unfold Py.round2.
  rewrite Zle_Qle in Ha, Hb.
  change (inject_Z 0) with 0 in Ha. change (inject_Z 10000) with 10000 in Hb.
  split.
  - apply Qle_shift_div_l; lra.
  - apply Qle_shift_div_r; lra.
Qed.

Lemma score_stock_range (log10 : Q -> Q) (metrics : Metrics.t) :
  0 <= score_stock log10 metrics <= 100.
Proof. unfold score_stock. apply round2_range, clamp_range. Qed.

(** ** The scorer's sub-terms *)

Section ScorerFacts.

Variable log10 : Q -> Q.

Lemma s_vol_eq (m : Metrics.t) :
  s_vol (sub_scores log10 m)
  = clamp ((Py.or_else (Metrics.vol_ratio m) 1 - (8 # 10)) / (12 # 10) * 100).
Proof. reflexivity. Qed.

Lemma s_vol_default : clamp ((1 - (8 # 10)) / (12 # 10) * 100) == 50 # 3.
Proof. rewrite clamp_inside; [reflexivity | split; discriminate]. Qed.

(** C6.  The drawdown sub-term of the technical score is 5 below -40, 90 on
    the closed band from -25 to -5, 50 from -40 up to (not including) -25,
    and 40 above -5; a drawdown of -18 gives 90 and one of -42 gives 5. *)
Theorem drawdown_subscore_piecewise (m : Metrics.t) (dd : Q) :
  Metrics.drawdown_52w_pct m = Some dd ->
  (dd < - 40 -> s_dd (sub_scores log10 m) = 5)
  /\ (- 25 <= dd <= - 5 -> s_dd (sub_scores log10 m) = 90)
  /\ (- 40 <= dd < - 25 -> s_dd (sub_scores log10 m) = 50)
  /\ (- 5 < dd -> s_dd (sub_scores log10 m) = 40)
  /\ (dd == - 18 -> s_dd (sub_scores log10 m) = 90)
  /\ (dd == - 42 -> s_dd (sub_scores log10 m) = 5).
Proof.
  intros Hdd. unfold sub_scores. cbn [s_dd]. rewrite Hdd. cbn [Py.if_none].
  destruct (ltb_reflect dd (- 40)) as [A | A];
    destruct (leb_reflect (- 25) dd) as [B | B];
    destruct (leb_reflect dd (- 5)) as [C | C];
    destruct (ltb_reflect dd (- 25)) as [D | D];
    cbn [andb];
    repeat split; intros; first [reflexivity | exfalso; lra].
Qed.

(** C10, as the code has it.  An absent volume ratio and a measured ratio
    of 0 are both replaced by 1.0 and give the sub-score 50/3; every other
    measured ratio of at most 0.8 gives 0, strictly less. *)
Theorem volume_subscore_substitution (absent measured : Metrics.t) (r : Q) :
  Metrics.vol_ratio absent = None ->
  Metrics.vol_ratio measured = Some r ->
  s_vol (sub_scores log10 absent) == 50 # 3
  /\ (r == 0 -> s_vol (sub_scores log10 measured) == 50 # 3)
  /\ (~ r == 0 -> r <= 8 # 10 ->
      s_vol (sub_scores log10 measured) == 0
      /\ s_vol (sub_scores log10 measured) < s_vol (sub_scores log10 absent)).
Proof.
  intros Ha Hm. rewrite !s_vol_eq, Ha, Hm. cbn [Py.or_else].
  split; [apply s_vol_default |].
  destruct (eqb_reflect r 0) as [E | E].
  - split; [intros _; apply s_vol_default | intros N; contradiction].
  - split; [intros N; contradiction |]. intros _ Hr.
    assert (Z : clamp ((r - (8 # 10)) / (12 # 10) * 100) == 0).
    { apply clamp_below.
      setoid_replace ((r - (8 # 10)) / (12 # 10) * 100)
        with ((r - (8 # 10)) * (250 # 3)) by field.
      lra. }
    split; [exact Z |]. rewrite Z, s_vol_default. reflexivity.
Qed.

End ScorerFacts.

(** ** Sanity checker: what the evidence holds *)

(** Case analysis on every scrutinee of the goal, innermost first. *)
Ltac split_matches :=
  cbv beta zeta;
  repeat (match goal with
          | |- context [match ?x with _ => _ end] =>
              lazymatch x with
              | context [match _ with _ => _ end] => fail
              | _ => destruct x eqn:?
              end
          end; cbv beta iota zeta).

Lemma evidence_price (i : Info) (tech : Tech.t) qe :
  Ev.price (evidence i tech qe) = Tech.price tech.
Proof. unfold evidence. split_matches; reflexivity. Qed.

Lemma evidence_upside_absent (i : Info) (tech : Tech.t) qe :
  Tech.price tech = None -> Ev.upside (evidence i tech qe) = None.
Proof. intros H. unfold evidence. rewrite H. split_matches; reflexivity. Qed.

Lemma evidence_peg (i : Info) (tech : Tech.t) qe :
  Ev.peg (evidence i tech qe)
  = match pegRatio i with
    | None => trailingPegRatio i
    | Some p => Some p
    end.
Proof. unfold evidence. split_matches; reflexivity. Qed.

Lemma evidence_rev_growth (i : Info) (tech : Tech.t) qe :
  Ev.rev_growth (evidence i tech qe)
  = match revenueGrowth i with
    | Some r => if Py.gtb r REV_GROWTH_CAP then None else Some r
    | None => None
    end.
Proof. unfold evidence. split_matches; reflexivity. Qed.

Lemma eps_volatility_check_keeps qe (fl : list SanityFlag) (f : SanityFlag) :
  In f fl -> In f (eps_volatility_check qe fl).
Proof.
  intros H. unfold eps_volatility_check.
  split_matches; try exact H. apply in_or_app. left. exact H.
Qed.

Lemma eps_volatility_check_peg qe (fl : list SanityFlag) :
  existsb is_peg_flag (eps_volatility_check qe fl) = existsb is_peg_flag fl.
Proof.
  unfold eps_volatility_check. split_matches; try reflexivity.
  rewrite existsb_app. cbn. rewrite !orb_false_r. reflexivity.
Qed.

Lemma evidence_flags_revenue (i : Info) (tech : Tech.t) qe (g : Q) :
  revenueGrowth i = Some g -> REV_GROWTH_CAP < g ->
  In (RevenueGrowthFlag g) (Ev.sanity_flags (evidence i tech qe)).
Proof.
  intros Hg Hcap. unfold evidence. rewrite Hg. cbv beta iota zeta.
  destruct (gtb_reflect g REV_GROWTH_CAP) as [_ | N]; [| contradiction].
  split_matches; cbn [Ev.sanity_flags]; apply eps_volatility_check_keeps;
    repeat rewrite in_app_iff; cbn [In]; tauto.
Qed.

Lemma evidence_flags_no_peg (i : Info) (tech : Tech.t) qe :
  pegRatio i = None ->
  existsb is_peg_flag (Ev.sanity_flags (evidence i tech qe)) = false.
Proof.
  intros Hp. unfold evidence. rewrite Hp. cbv beta iota zeta.
  split_matches; cbn [Ev.sanity_flags]; rewrite eps_volatility_check_peg;
    reflexivity.
Qed.

Lemma layer1_clauses (ev : Ev.t) :
  layer1 ev
  = revenue_clause ev && eps_pass ev && peg_clause ev
    && market_cap_clause ev && upside_clause ev.
Proof.
  unfold layer1. cbn [forallb].
  destruct (revenue_clause ev), (eps_pass ev), (peg_clause ev),
    (market_cap_clause ev), (upside_clause ev); reflexivity.
Qed.

(** ** The funnel *)

Section FunnelFacts.

Variable w : Collaborators.

Lemma analyze_ticker_fetched (t : string) (rvs : bool) tk i hist :
  yf_Ticker w (upper_strip w t) = inr tk ->
  info tk = inr i ->
  history tk = inr hist ->
  analyze_ticker w t rvs
  = match layers w (upper_strip w t) rvs tk i hist with
    | inr r => r
    | inl e => processing_failed (upper_strip w t) e
    end.
Proof.
  intros Htk Hi Hh. unfold analyze_ticker, analyze_body.
  rewrite Htk. cbn [bind]. rewrite Hi. cbn [bind]. rewrite Hh. reflexivity.
Qed.

(** A ticker that stops at Layer 1 never reaches a later call. *)
Lemma layers_stop_at_layer1 (t : string) (rvs : bool) tk i hist :
  layer1 (evidence i (get_technical_metrics (rsi_last w) hist)
                   (quarterly_earnings tk)) = false ->
  layers w t rvs tk i hist
  = inr (stopped t false false "未通过 Layer 1 基本面筛选"
                 (evidence i (get_technical_metrics (rsi_last w) hist)
                           (quarterly_earnings tk))
                 (get_technical_metrics (rsi_last w) hist)).
Proof. intros H. unfold layers. rewrite H. reflexivity. Qed.

(** Every result has one of three shapes. *)
Lemma analyze_ticker_shape (t : string) (rvs : bool) :
  (exists e, analyze_ticker w t rvs = processing_failed (upper_strip w t) e)
  \/ (exists l1 l2 why ev tech,
         analyze_ticker w t rvs = stopped (upper_strip w t) l1 l2 why ev tech)
  \/ (exists ev tech opt,
         analyze_ticker w t rvs
         = passed (upper_strip w t)
                  (score_stock (log10 w) (metrics_of ev tech opt)) ev tech opt).
Proof.
  unfold analyze_ticker, analyze_body.
  destruct (yf_Ticker w (upper_strip w t)) as [e | tk]; cbn [bind]; [left; eauto |].
  destruct (info tk) as [e | i]; cbn [bind]; [left; eauto |].
  destruct (history tk) as [e | hist]; cbn [bind]; [left; eauto |].
  unfold layers.
  destruct (negb (layer1 _)); [right; left; cbn [ret]; eauto 6 |].
  destruct (negb (layer2 _ _)); [right; left; cbn [ret]; eauto 6 |].
  destruct (get_option_metrics _ _ _ _ _) as [e | opt]; cbn [bind]; [left; eauto |].
  destruct (negb (Opt.layer3_pass opt)); cbn [ret];
    [right; left; eauto 6 | right; right; eauto].
Qed.

(** C1.  The score of every result lies in [0,100], and it is exactly 0
    whenever one of the three layer flags is false. *)
Theorem score_in_range_and_zero_on_failure (t : string) (rvs : bool) :
  0 <= score (analyze_ticker w t rvs) <= 100
  /\ (layer1_pass (analyze_ticker w t rvs) = false
      \/ layer2_pass (analyze_ticker w t rvs) = false
      \/ layer3_pass (analyze_ticker w t rvs) = false ->
      score (analyze_ticker w t rvs) = 0).
Proof.
  destruct (analyze_ticker_shape t rvs)
    as [[e H] | [(l1 & l2 & why & ev & tech & H) | (ev & tech & opt & H)]];
    rewrite H;
    cbn [score layer1_pass layer2_pass layer3_pass processing_failed stopped passed].
  - split; [split; discriminate | reflexivity].
  - split; [split; discriminate | reflexivity].
  - split; [apply score_stock_range |]. intros [F | [F | F]]; discriminate.
Qed.

(** C2, as the code has it.  With an empty price history every technical
    metric is absent, so no upside can be computed and the ticker stops at
    Layer 1 with the fundamentals reason; Layer 2 is not reached. *)
Theorem empty_history_stops_at_layer1 (t : string) (rvs : bool) tk i :
  yf_Ticker w (upper_strip w t) = inr tk ->
  info tk = inr i ->
  history tk = inr (Some []) ->
  current_price (analyze_ticker w t rvs) = None
  /\ rsi14 (analyze_ticker w t rvs) = None
  /\ drawdown_52w_pct (analyze_ticker w t rvs) = None
  /\ vol_ratio (analyze_ticker w t rvs) = None
  /\ vol_spike (analyze_ticker w t rvs) = None
  /\ upside (analyze_ticker w t rvs) = None
  /\ layer1_pass (analyze_ticker w t rvs) = false
  /\ layer2_pass (analyze_ticker w t rvs) = false
  /\ layer3_pass (analyze_ticker w t rvs) = false
  /\ reason (analyze_ticker w t rvs) = "未通过 Layer 1 基本面筛选"%string
  /\ score (analyze_ticker w t rvs) = 0.
Proof.
  intros Htk Hi Hh. rewrite (analyze_ticker_fetched t rvs tk i _ Htk Hi Hh).
  assert (Hup : Ev.upside (evidence i (get_technical_metrics (rsi_last w) (Some []))
                                    (quarterly_earnings tk)) = None)
    by (apply evidence_upside_absent; reflexivity).
  rewrite layers_stop_at_layer1.
  - cbn [stopped current_price rsi14 drawdown_52w_pct vol_ratio
                 vol_spike upside layer1_pass layer2_pass layer3_pass reason score].
    rewrite Hup, evidence_price. repeat split; reflexivity.
  - rewrite layer1_clauses. unfold upside_clause. rewrite Hup. cbn [present_gt].
    apply andb_false_r.
Qed.

(** C5.  A reported revenue growth above 200% is flagged and nulled, and
    the ticker then stops at Layer 1 whatever its other fields are. *)
Theorem revenue_growth_cap (t : string) (rvs : bool) tk i hist (g : Q) :
  yf_Ticker w (upper_strip w t) = inr tk ->
  info tk = inr i ->
  history tk = inr hist ->
  revenueGrowth i = Some g ->
  2 < g ->
  (exists fl, sanity_flags (analyze_ticker w t rvs) = Some fl
              /\ In (RevenueGrowthFlag g) fl)
  /\ revenue_growth (analyze_ticker w t rvs) = None
  /\ revenue_clause (evidence i (get_technical_metrics (rsi_last w) hist)
                              (quarterly_earnings tk)) = false
  /\ layer1_pass (analyze_ticker w t rvs) = false
  /\ reason (analyze_ticker w t rvs) = "未通过 Layer 1 基本面筛选"%string
  /\ score (analyze_ticker w t rvs) = 0.
Proof.
  intros Htk Hi Hh Hg Hcap. rewrite (analyze_ticker_fetched t rvs tk i _ Htk Hi Hh).
  set (tech := get_technical_metrics (rsi_last w) hist).
  set (ev := evidence i tech (quarterly_earnings tk)).
  assert (Hrev : Ev.rev_growth ev = None).
  { unfold ev. rewrite evidence_rev_growth, Hg.
    destruct (gtb_reflect g REV_GROWTH_CAP) as [_ | N]; [reflexivity | contradiction]. }
  assert (Hcl : revenue_clause ev = false).
  { unfold revenue_clause. rewrite Hrev. reflexivity. }
  assert (Hl1 : layer1 ev = false).
  { rewrite layer1_clauses, Hcl. reflexivity. }
  assert (Hfl : In (RevenueGrowthFlag g) (Ev.sanity_flags ev)).
  { apply evidence_flags_revenue; assumption. }
  rewrite layers_stop_at_layer1 by exact Hl1. fold tech. fold ev.
  cbn [stopped sanity_flags revenue_growth layer1_pass reason score].
  repeat split; try assumption.
  destruct (Ev.sanity_flags ev) as [| f fl] eqn:E; [contradiction |].
  exists (f :: fl). split; [reflexivity | exact Hfl].
Qed.

End FunnelFacts.


(** ** The option selector *)

Section SortFacts.

Context {A : Type} (le : A -> A -> bool).

Lemma insert_by_In (x a : A) (l : list A) :
  In a (insert_by le x l) <-> a = x \/ In a l.
Proof.
  induction l as [| y r IH]; cbn [insert_by In].
  - intuition congruence.
  - destruct (le x y); cbn [In]; [intuition congruence |].
    rewrite IH. intuition congruence.
Qed.

Lemma sort_by_In (a : A) (l : list A) : In a (sort_by le l) <-> In a l.
Proof.
  induction l as [| x r IH]; cbn [sort_by fold_right In]; [tauto |].
  fold (sort_by le r). rewrite insert_by_In, IH. intuition congruence.
Qed.

Lemma sort_by_head (x : A) (l : list A) :
  exists y, hd_error (sort_by le (x :: l)) = Some y.
Proof.
  cbn [sort_by fold_right]. fold (sort_by le l).
  destruct (sort_by le l) as [| z r]; cbn [insert_by].
  - exists x. reflexivity.
  - destruct (le x z); cbn [hd_error]; eauto.
Qed.

End SortFacts.

Lemma pick_atm_call_some (calls : list Row.t) (spot : Q) :
  calls <> [] ->
  exists atm, pick_atm_call calls (Some spot) = Some atm /\ In atm calls.
Proof.
  destruct calls as [| c r]; [congruence |]. intros _.
  destruct (sort_by_head (row_before spot) c r) as [atm H].
  exists atm. split; [exact H |].
  apply (sort_by_In (row_before spot)).
  destruct (sort_by (row_before spot) (c :: r)); [discriminate |].
  injection H as ->. left. reflexivity.
Qed.

Lemma pick_atm_call_none (calls : list Row.t) (spot : Q) :
  pick_atm_call calls (Some spot) = None -> calls = [].
Proof.
  destruct calls as [| c r]; [reflexivity |]. intros H.
  destruct (pick_atm_call_some (c :: r) spot) as (atm & E & _); congruence.
Qed.

Lemma atm_of_some (tk : Ticker) (spot : Q) (expiry : string) :
  (exists atm, atm_of tk spot expiry = Some atm)
  <-> (exists calls, option_chain tk expiry = inr calls /\ calls <> []).
Proof.
  unfold atm_of. destruct (option_chain tk expiry) as [e | calls].
  - split; intros [x H]; [discriminate | destruct H; discriminate].
  - split.
    + intros [atm H]. exists calls. split; [reflexivity |].
      intros ->. discriminate.
    + intros (calls' & E & N). injection E as <-.
      destruct (pick_atm_call_some calls spot N) as (atm & H & _). eauto.
Qed.

Lemma fallback_call_step (tk : Ticker) (spot : Q) expiry dd rest :
  fallback_call tk spot ((expiry, dd) :: rest)
  = match atm_of tk spot expiry with
    | Some atm => Some (expiry, atm)
    | None => fallback_call tk spot rest
    end.
Proof.
  cbn [fallback_call]. unfold atm_of.
  destruct (option_chain tk expiry); reflexivity.
Qed.

Lemma collect_atm_step (tk : Ticker) (spot : Q) preferred expiry dd rest ivs chosen :
  collect_atm tk spot preferred ((expiry, dd) :: rest) ivs chosen
  = match atm_of tk spot expiry with
    | Some atm =>
        collect_atm tk spot preferred rest
          match Row.impliedVolatility atm with
          | Some iv => if Py.gtb iv 0 then ivs ++ [iv] else ivs
          | None => ivs
          end
          (if String.eqb expiry preferred then Some atm else chosen)
    | None => collect_atm tk spot preferred rest ivs chosen
    end.
Proof.
  cbn [collect_atm]. unfold atm_of.
  destruct (option_chain tk expiry); reflexivity.
Qed.

Lemma fallback_call_none (tk : Ticker) (spot : Q) (l : list (string * Z)) :
  fallback_call tk spot l = None ->
  forall expiry dd, In (expiry, dd) l -> atm_of tk spot expiry = None.
Proof.
  induction l as [| [e d] rest IH]; intros H expiry dd Hin; [contradiction |].
  rewrite fallback_call_step in H.
  destruct (atm_of tk spot e) eqn:E; [discriminate |].
  destruct Hin as [Hin | Hin]; [injection Hin as <- <-; exact E | eauto].
Qed.

Lemma fallback_call_some (tk : Ticker) (spot : Q) (l : list (string * Z)) expiry atm :
  fallback_call tk spot l = Some (expiry, atm) ->
  (exists dd, In (expiry, dd) l) /\ atm_of tk spot expiry = Some atm.
Proof.
  induction l as [| [e d] rest IH]; intros H; [discriminate |].
  rewrite fallback_call_step in H.
  destruct (atm_of tk spot e) eqn:E.
  - injection H as <- <-. split; [exists d; left; reflexivity | exact E].
  - destruct (IH H) as [[dd Hin] Hatm]. split; [exists dd; right; exact Hin | exact Hatm].
Qed.

Lemma collect_atm_chosen (tk : Ticker) (spot : Q) preferred (l : list (string * Z)) ivs chosen atm :
  snd (collect_atm tk spot preferred l ivs chosen) = Some atm ->
  chosen = Some atm
  \/ ((exists dd, In (preferred, dd) l) /\ atm_of tk spot preferred = Some atm).
Proof.
  revert ivs chosen. induction l as [| [e d] rest IH]; intros ivs chosen H.
  - left. exact H.
  - rewrite collect_atm_step in H. destruct (atm_of tk spot e) as [a |] eqn:E.
    + apply IH in H. destruct H as [H | [[dd Hin] Hatm]].
      * destruct (String.eqb_spec e preferred) as [-> | N].
        -- right. injection H as <-. split; [exists d; left; reflexivity | exact E].
        -- left. exact H.
      * right. split; [exists dd; right; exact Hin | exact Hatm].
    + apply IH in H. destruct H as [H | [[dd Hin] Hatm]]; [left; exact H |].
      right. split; [exists dd; right; exact Hin | exact Hatm].
Qed.

Lemma collect_atm_ivs (tk : Ticker) (spot : Q) preferred (l : list (string * Z)) ivs chosen iv :
  In iv (fst (collect_atm tk spot preferred l ivs chosen))
  <-> In iv ivs \/ observed_iv tk spot l iv.
Proof.
  revert ivs chosen. induction l as [| [e d] rest IH]; intros ivs chosen.
  - cbn [collect_atm fst]. split; [tauto |].
    intros [H | (x & dd & atm & Hin & _)]; [exact H | contradiction].
  - rewrite collect_atm_step. unfold observed_iv in *.
    destruct (atm_of tk spot e) as [a |] eqn:E.
    + rewrite IH. split.
      * intros [H | (x & dd & atm & Hin & Hatm & Hiv & Hpos)].
        -- destruct (Row.impliedVolatility a) as [v |] eqn:Ea; [| tauto].
           destruct (gtb_reflect v 0) as [P | P]; [| tauto].
           apply in_app_or in H. destruct H as [H | [<- | []]]; [tauto |].
           right. exists e, d, a. cbn [In]. tauto.
        -- right. exists x, dd, atm. cbn [In]. tauto.
      * intros [H | (x & dd & atm & [Hin | Hin] & Hatm & Hiv & Hpos)].
        -- left. destruct (Row.impliedVolatility a) as [v |]; [| exact H].
           destruct (Py.gtb v 0); [apply in_or_app; tauto | exact H].
        -- injection Hin as <- <-. rewrite E in Hatm. injection Hatm as <-.
           rewrite Hiv. destruct (gtb_reflect iv 0) as [P | P]; [| contradiction].
           left. apply in_or_app. right. left. reflexivity.
        -- right. exists x, dd, atm. tauto.
    + rewrite IH. split.
      * intros [H | (x & dd & atm & Hin & Hatm)]; [tauto |].
        right. exists x, dd, atm. cbn [In]. tauto.
      * intros [H | (x & dd & atm & [Hin | Hin] & Hatm & Hrest)]; [tauto | |].
        -- injection Hin as <- <-. congruence.
        -- right. exists x, dd, atm. tauto.
Qed.

(** [min] and [max] of the observed implied volatilities. *)

Lemma Qmin_cases (x y : Q) : Qmin x y = x \/ Qmin x y = y.
Proof. unfold Qmin, GenericMinMax.gmin. destruct (x ?= y); auto. Qed.

Lemma Qmax_cases (x y : Q) : Qmax x y = x \/ Qmax x y = y.
Proof. unfold Qmax, GenericMinMax.gmax. destruct (x ?= y); auto. Qed.

Lemma fold_min_spec (r : list Q) (x : Q) :
  In (fold_left Qmin r x) (x :: r)
  /\ forall y, In y (x :: r) -> fold_left Qmin r x <= y.
Proof.
  revert x. induction r as [| z r IH]; intros x; cbn [fold_left].
  - split; [left; reflexivity |]. intros y [<- | []]. apply Qle_refl.
  - destruct (IH (Qmin x z)) as [Hin Hle]. split.
    + destruct Hin as [Hin | Hin]; [| right; right; exact Hin].
      rewrite <- Hin. destruct (Qmin_cases x z) as [-> | ->]; cbn [In]; auto.
    + intros y Hy.
      assert (Hm : fold_left Qmin r (Qmin x z) <= Qmin x z) by (apply Hle; left; reflexivity).
      destruct Hy as [<- | [<- | Hy]].
      * eapply Qle_trans; [exact Hm | apply Q.le_min_l].
      * eapply Qle_trans; [exact Hm | apply Q.le_min_r].
      * apply Hle. right. exact Hy.
Qed.

Lemma fold_max_spec (r : list Q) (x : Q) :
  In (fold_left Qmax r x) (x :: r)
  /\ forall y, In y (x :: r) -> y <= fold_left Qmax r x.
Proof.
  revert x. induction r as [| z r IH]; intros x; cbn [fold_left].
  - split; [left; reflexivity |]. intros y [<- | []]. apply Qle_refl.
  - destruct (IH (Qmax x z)) as [Hin Hle]. split.
    + destruct Hin as [Hin | Hin]; [| right; right; exact Hin].
      rewrite <- Hin. destruct (Qmax_cases x z) as [-> | ->]; cbn [In]; auto.
    + intros y Hy.
      assert (Hm : Qmax x z <= fold_left Qmax r (Qmax x z)) by (apply Hle; left; reflexivity).
      destruct Hy as [<- | [<- | Hy]].
      * eapply Qle_trans; [apply Q.le_max_l | exact Hm].
      * eapply Qle_trans; [apply Q.le_max_r | exact Hm].
      * apply Hle. right. exact Hy.
Qed.

Lemma min_max_list_spec (l : list Q) :
  l <> [] ->
  In (Py.min_list l) l /\ In (Py.max_list l) l
  /\ forall y, In y l -> Py.min_list l <= y <= Py.max_list l.
Proof.
  destruct l as [| x r]; [congruence |]. intros _. cbn [Py.min_list Py.max_list].
  destruct (fold_min_spec r x) as [A B]. destruct (fold_max_spec r x) as [C D].
  repeat split; auto.
Qed.

(** The guard of the IV rank: two observations and [iv_max > iv_min] says
    that two of the observed values differ. *)
Lemma two_distinct_observations (l : list Q) :
  (2 <=? List.length l)%nat && Py.gtb (Py.max_list l) (Py.min_list l) = true
  <-> exists a b, In a l /\ In b l /\ ~ a == b.
Proof.
  rewrite andb_true_iff, Nat.leb_le. split.
  - intros [Hlen Hgt]. destruct (gtb_reflect (Py.max_list l) (Py.min_list l)) as [G | G];
      [| discriminate].
    assert (N : l <> []) by (intros ->; cbn in Hlen; lia).
    destruct (min_max_list_spec l N) as (A & B & _).
    exists (Py.min_list l), (Py.max_list l). repeat split; auto. lra.
  - intros (a & b & Ha & Hb & Hab).
    assert (N : l <> []) by (intros ->; contradiction).
    destruct (min_max_list_spec l N) as (_ & _ & C).
    destruct (C a Ha) as [A1 A2]. destruct (C b Hb) as [B1 B2]. split.
    + destruct l as [| x [| y r]]; cbn [List.length]; try lia; [contradiction |].
      destruct Ha as [<- | []]. destruct Hb as [<- | []]. exfalso. apply Hab. reflexivity.
    + destruct (gtb_reflect (Py.max_list l) (Py.min_list l)) as [G | G]; [reflexivity |].
      exfalso. apply Hab. lra.
Qed.

Lemma select_contract_ivs (tk : Ticker) (spot : Q) (l : list (string * Z)) (iv : Q) :
  In iv (fst (select_contract tk spot l)) <-> observed_iv tk spot l iv.
Proof.
  unfold select_contract. destruct l as [| [p d] rest].
  - cbn [fst In]. split; [contradiction |]. intros (e & dd & atm & H & _). contradiction.
  - pose proof (collect_atm_ivs tk spot p ((p, d) :: rest) [] None iv) as H.
    destruct (collect_atm tk spot p ((p, d) :: rest) [] None) as [ivs [c |]];
      cbn [fst] in H |- *; rewrite H; cbn [In]; tauto.
Qed.

Lemma select_contract_some (tk : Ticker) (spot : Q) (l : list (string * Z)) e c :
  snd (select_contract tk spot l) = Some (e, c) ->
  (exists dd, In (e, dd) l) /\ atm_of tk spot e = Some c.
Proof.
  unfold select_contract. destruct l as [| [p d] rest]; [discriminate |].
  pose proof (collect_atm_chosen tk spot p ((p, d) :: rest) [] None) as H.
  destruct (collect_atm tk spot p ((p, d) :: rest) [] None) as [ivs [a |]];
    cbn [snd] in H |- *.
  - intros E. injection E as <- <-.
    destruct (H a eq_refl) as [H' | H']; [discriminate | exact H'].
  - apply fallback_call_some.
Qed.

Lemma select_contract_none (tk : Ticker) (spot : Q) (l : list (string * Z)) :
  snd (select_contract tk spot l) = None ->
  forall e dd, In (e, dd) l -> atm_of tk spot e = None.
Proof.
  unfold select_contract. destruct l as [| [p d] rest]; [intros _ e dd [] |].
  destruct (collect_atm tk spot p ((p, d) :: rest) [] None) as [ivs [a |]];
    cbn [snd]; [discriminate |].
  apply fallback_call_none.
Qed.

Section SelectorFacts.

Variable strptime : string -> option Z.
Variable today : Z.

(** The selector returns whenever the expiration listing can be read. *)
Lemma get_option_metrics_returns (tk : Ticker) (spot : Q) (months : Z) os :
  options tk = inr os ->
  exists m,
    get_option_metrics strptime today tk spot months = inr m
    /\ match snd (select_contract tk spot (eligible_expiries strptime today os months)) with
       | Some (e, c) =>
           m = quote_metrics spot e c
                 (fst (select_contract tk spot (eligible_expiries strptime today os months)))
       | None => exists why, m = Opt.failed why
       end.
Proof.
  intros Hos. unfold get_option_metrics. rewrite Hos. cbn [bind].
  destruct os as [| o os'].
  - eexists. split; [reflexivity |]. cbn. eauto.
  - destruct (eligible_expiries strptime today (o :: os') months) as [| p l] eqn:E.
    + eexists. split; [reflexivity |]. cbn. eauto.
    + destruct (select_contract tk spot (p :: l)) as [ivs [[e c] |]]; cbn [fst snd];
        eexists; (split; [reflexivity |]); eauto.
Qed.

Lemma get_option_metrics_shape (tk : Ticker) (spot : Q) (months : Z) m :
  get_option_metrics strptime today tk spot months = inr m ->
  (exists why, m = Opt.failed why)
  \/ (exists e c ivs, m = quote_metrics spot e c ivs).
Proof.
  intros H. destruct (options tk) as [x | os] eqn:Hos.
  - unfold get_option_metrics in H. rewrite Hos in H. discriminate.
  - destruct (get_option_metrics_returns tk spot months os Hos) as (m' & E & S).
    rewrite E in H. injection H as <-.
    destruct (snd (select_contract tk spot _)) as [[e c] |]; [right; eauto | left; exact S].
Qed.

End SelectorFacts.

Lemma quote_metrics_iv_rank (spot : Q) (e : string) (c : Row.t) (ivs : list Q) :
  Opt.iv_rank (quote_metrics spot e c ivs)
  = match Row.impliedVolatility c with
    | Some iv =>
        if (2 <=? List.length ivs)%nat && Py.gtb (Py.max_list ivs) (Py.min_list ivs)
        then Some (clamp ((iv - Py.min_list ivs)
                          / (Py.max_list ivs - Py.min_list ivs) * 100))
        else None
    | None => None
    end.
Proof.
  unfold quote_metrics. cbn [Opt.iv_rank].
  destruct (Row.impliedVolatility c); [| reflexivity].
  destruct (2 <=? List.length ivs)%nat; [| reflexivity].
  destruct (Py.gtb _ _); reflexivity.
Qed.

Lemma quote_metrics_required_move (spot : Q) (e : string) (c : Row.t) (ivs : list Q) :
  Opt.required_move_for_2x_pct (quote_metrics spot e c ivs)
  = match Row.strike c, Row.bid c, Row.ask c with
    | Some k, Some b, Some a =>
        if Py.gtb a 0 && (Py.truthy (Some spot) && Py.gtb spot 0)
        then Some (((k + 2 * ((b + a) / 2)) / spot - 1) * 100)
        else None
    | _, _, _ => None
    end.
Proof.
  unfold quote_metrics. cbn [Opt.required_move_for_2x_pct].
  destruct (Row.strike c); destruct (Row.bid c); try reflexivity;
    destruct (Row.ask c); try reflexivity;
    destruct (Py.gtb _ 0); try reflexivity;
    cbn [andb]; destruct (Py.truthy (Some spot) && Py.gtb spot 0); reflexivity.
Qed.

Section SelectorClaims.

Variable strptime : string -> option Z.
Variable today : Z.

(** C3, as the code has it.  The selector's result is populated exactly when
    some eligible expiration has a chain holding a call contract, whatever
    the cells of that contract hold: then Layer 3 passes, the expiration is
    present, and strike, bid and ask are the cells of the ATM call of that
    expiration, each of which may be absent; in every other case Layer 3
    fails and all seven fields are absent. *)
Theorem option_quote_populated (tk : Ticker) (spot : Q) (months : Z) os :
  options tk = inr os ->
  exists m,
    get_option_metrics strptime today tk spot months = inr m
    /\ (Opt.layer3_pass m = true
        <-> has_contract tk (eligible_expiries strptime today os months))
    /\ (Opt.layer3_pass m = false ->
        Opt.expiry m = None /\ Opt.strike m = None /\ Opt.bid m = None
        /\ Opt.ask m = None /\ Opt.spread_pct m = None /\ Opt.iv_rank m = None
        /\ Opt.required_move_for_2x_pct m = None)
    /\ (Opt.layer3_pass m = true ->
        exists e c,
          Opt.expiry m = Some e
          /\ atm_of tk spot e = Some c
          /\ Opt.strike m = Row.strike c
          /\ Opt.bid m = Row.bid c
          /\ Opt.ask m = Row.ask c).
Proof.
  intros Hos.
  destruct (get_option_metrics_returns strptime today tk spot months os Hos)
    as (m & Hm & S).
  exists m. split; [exact Hm |].
  destruct (snd (select_contract tk spot _)) as [[e c] |] eqn:Sel.
  - subst m. cbn [quote_metrics Opt.layer3_pass Opt.expiry Opt.strike Opt.bid Opt.ask].
    destruct (select_contract_some _ _ _ _ _ Sel) as [[dd Hin] Hatm].
    split; [| split; [discriminate |]].
    + split; [intros _ | reflexivity].
      destruct (proj1 (atm_of_some tk spot e) (ex_intro _ c Hatm)) as (calls & Hc & N).
      exists e, dd, calls. auto.
    + intros _. exists e, c. repeat split. exact Hatm.
  - destruct S as [why ->]. cbn [Opt.failed Opt.layer3_pass].
    split; [| split; [intros _; repeat split | discriminate]].
    split; [discriminate |]. intros (e & dd & calls & Hin & Hc & N). exfalso.
    destruct (proj2 (atm_of_some tk spot e) (ex_intro _ calls (conj Hc N))) as [atm Hatm].
    rewrite (select_contract_none _ _ _ Sel e dd Hin) in Hatm. discriminate.
Qed.

(** C4, as the code has it.  For the chosen contract [c], the IV-rank proxy
    is defined exactly when the contract's own implied volatility is present
    and two of the observed ATM implied volatilities differ; it is then the
    position of the contract's value between the least and the greatest
    observed value, scaled to 0-100 and clamped. *)
Theorem iv_rank_defined (tk : Ticker) (spot : Q) (months : Z) os e c :
  options tk = inr os ->
  snd (select_contract tk spot (eligible_expiries strptime today os months))
  = Some (e, c) ->
  exists m,
    get_option_metrics strptime today tk spot months = inr m
    /\ ((exists r, Opt.iv_rank m = Some r)
        <-> (exists iv, Row.impliedVolatility c = Some iv)
            /\ (exists a b,
                   observed_iv tk spot (eligible_expiries strptime today os months) a
                   /\ observed_iv tk spot (eligible_expiries strptime today os months) b
                   /\ ~ a == b))
    /\ (forall r, Opt.iv_rank m = Some r ->
        exists iv lo hi,
          Row.impliedVolatility c = Some iv
          /\ observed_iv tk spot (eligible_expiries strptime today os months) lo
          /\ observed_iv tk spot (eligible_expiries strptime today os months) hi
          /\ (forall x,
                 observed_iv tk spot (eligible_expiries strptime today os months) x ->
                 lo <= x <= hi)
          /\ lo < hi
          /\ r == clamp ((iv - lo) / (hi - lo) * 100)
          /\ 0 <= r <= 100).
Proof.
  intros Hos Sel.
  destruct (get_option_metrics_returns strptime today tk spot months os Hos)
    as (m & Hm & S).
  exists m. split; [exact Hm |]. rewrite Sel in S. subst m.
  set (l := eligible_expiries strptime today os months) in *.
  set (ivs := fst (select_contract tk spot l)).
  assert (Obs : forall x, In x ivs <-> observed_iv tk spot l x)
    by (intros x; exact (select_contract_ivs tk spot l x)).
  assert (Two : (2 <=? List.length ivs)%nat && Py.gtb (Py.max_list ivs) (Py.min_list ivs) = true
                <-> exists a b, observed_iv tk spot l a /\ observed_iv tk spot l b /\ ~ a == b).
  { rewrite two_distinct_observations. split; intros (a & b & Ha & Hb & N);
      exists a, b; (split; [apply Obs; exact Ha | split; [apply Obs; exact Hb | exact N]]). }
  rewrite quote_metrics_iv_rank. split.
  - destruct (Row.impliedVolatility c) as [iv |].
    + destruct ((2 <=? List.length ivs)%nat && Py.gtb _ _) eqn:G.
      * split; [intros _ | eauto]. split; [eauto | apply Two; reflexivity].
      * split; [intros [r H]; discriminate |]. intros [_ H].
        apply Two in H. discriminate.
    + split; [intros [r H]; discriminate | intros [[iv H] _]; discriminate].
  - intros r Hr. destruct (Row.impliedVolatility c) as [iv |]; [| discriminate].
    destruct ((2 <=? List.length ivs)%nat && Py.gtb _ _) eqn:G; [| discriminate].
    injection Hr as <-.
    apply andb_true_iff in G. destruct G as [Hlen G].
    destruct (gtb_reflect (Py.max_list ivs) (Py.min_list ivs)) as [Lt | ]; [| discriminate].
    assert (N : ivs <> []).
    { intros E. rewrite E in Hlen. discriminate. }
    destruct (min_max_list_spec ivs N) as (A & B & C).
    exists iv, (Py.min_list ivs), (Py.max_list ivs).
    split; [reflexivity |]. split; [apply Obs; exact A |]. split; [apply Obs; exact B |].
    split; [intros x Hx; apply C, Obs; exact Hx |]. split; [exact Lt |].
    split; [reflexivity | apply clamp_range].
Qed.

(** C7, as the code has it.  With strike, bid and ask present, spot > 0 and
    a positive ask, the required move is ((strike + 2*premium)/spot - 1)*100
    for the midpoint premium; spot 100, strike 105, bid 8 and ask 9 give the
    premium 8.5, the target spot 122 and the move 22.  With an ask of 0 or
    less the move is absent. *)
Theorem required_move_to_double (tk : Ticker) (spot : Q) (months : Z) m k b a :
  get_option_metrics strptime today tk spot months = inr m ->
  Opt.strike m = Some k ->
  Opt.bid m = Some b ->
  Opt.ask m = Some a ->
  0 < spot ->
  (0 < a ->
   exists v,
     Opt.required_move_for_2x_pct m = Some v
     /\ v == ((k + 2 * ((b + a) / 2)) / spot - 1) * 100
     /\ (spot == 100 -> k == 105 -> b == 8 -> a == 9 ->
         (b + a) / 2 == 85 # 10 /\ k + 2 * ((b + a) / 2) == 122 /\ v == 22))
  /\ (a <= 0 -> Opt.required_move_for_2x_pct m = None).
Proof.
  intros Hm Hk Hb Ha Hspot.
  destruct (get_option_metrics_shape strptime today tk spot months m Hm)
    as [[why ->] | (e & c & ivs & ->)]; [discriminate |].
  rewrite quote_metrics_required_move.
  cbn [quote_metrics Opt.strike Opt.bid Opt.ask] in Hk, Hb, Ha.
  rewrite Hk, Hb, Ha.
  assert (T : Py.truthy (Some spot) && Py.gtb spot 0 = true).
  { cbn [Py.truthy]. destruct (eqb_reflect spot 0) as [Z | Z]; [lra |].
    destruct (gtb_reflect spot 0); [reflexivity | contradiction]. }
  rewrite T. split.
  - intros Hpos. destruct (gtb_reflect a 0) as [_ | N]; [| contradiction].
    cbn [andb]. eexists. split; [reflexivity |]. split; [reflexivity |].
    intros Es Ek Eb Ea. rewrite Es, Ek, Eb, Ea. repeat split; reflexivity.
  - intros Hneg. destruct (gtb_reflect a 0) as [P | _]; [lra | reflexivity].
Qed.

End SelectorClaims.

(** ** The batch loop *)

Section BatchFacts.

Variable w : Collaborators.

Lemma scan_acc (rvs : bool) (universe : list string) (acc : list StockResult) :
  fold_left (fun results t => results ++ [analyze_ticker w t rvs]) universe acc
  = acc ++ map (fun t => analyze_ticker w t rvs) universe.
Proof.
  revert acc. induction universe as [| t rest IH]; intros acc; cbn [fold_left map].
  - rewrite app_nil_r. reflexivity.
  - rewrite IH, <- app_assoc. reflexivity.
Qed.

Lemma scan_map (universe : list string) (rvs : bool) :
  scan w universe rvs = map (fun t => analyze_ticker w t rvs) universe.
Proof. unfold scan. rewrite scan_acc. reflexivity. Qed.

Lemma retrieval_error_fails (t : string) (rvs : bool) (detail : exn) :
  retrieval_error w (upper_strip w t) = Some detail ->
  analyze_ticker w t rvs = processing_failed (upper_strip w t) detail.
Proof.
  unfold retrieval_error, analyze_ticker, analyze_body.
  destruct (yf_Ticker w (upper_strip w t)) as [e | tk]; cbn [bind].
  - intros H. injection H as ->. reflexivity.
  - destruct (info tk) as [e | i]; cbn [bind].
    + intros H. injection H as ->. reflexivity.
    + destruct (history tk) as [e | hist]; cbn [bind]; [| discriminate].
      intros H. injection H as ->. reflexivity.
Qed.

(** C8.  When fetching a ticker's raw data raises, the ticker is recorded
    with score 0, the three flags false and the reason "处理失败：" followed
    by the exception's message, and the tickers before and after it are
    evaluated as they would be on their own. *)
Theorem failed_retrieval_is_recorded (pre post : list string) (t : string)
        (rvs : bool) (detail : exn) :
  retrieval_error w (upper_strip w t) = Some detail ->
  score (analyze_ticker w t rvs) = 0
  /\ layer1_pass (analyze_ticker w t rvs) = false
  /\ layer2_pass (analyze_ticker w t rvs) = false
  /\ layer3_pass (analyze_ticker w t rvs) = false
  /\ reason (analyze_ticker w t rvs) = ("处理失败：" ++ detail)%string
  /\ scan w (pre ++ t :: post) rvs
     = scan w pre rvs ++ analyze_ticker w t rvs :: scan w post rvs
  /\ List.length (scan w (pre ++ t :: post) rvs) = List.length (pre ++ t :: post).
Proof.
  intros H. rewrite (retrieval_error_fails t rvs detail H).
  cbn [processing_failed score layer1_pass layer2_pass layer3_pass reason].
  repeat split.
  - rewrite !scan_map, map_app. cbn [map].
    rewrite (retrieval_error_fails t rvs detail H). reflexivity.
  - rewrite scan_map. apply length_map.
Qed.

End BatchFacts.

(** ** Worked inputs *)

Lemma drawdown_subscore_piecewise_witness :
  Metrics.drawdown_52w_pct (Sample.with_drawdown (- 18)) = Some (- 18)
  /\ s_dd (sub_scores Sample.log10 (Sample.with_drawdown (- 18))) = 90.
Proof.
  split; [reflexivity |].
  destruct (drawdown_subscore_piecewise Sample.log10 (Sample.with_drawdown (- 18))
              (- 18) eq_refl) as (_ & H & _).
  apply H. split; discriminate.
Defined.

Lemma volume_subscore_substitution_witness :
  Metrics.vol_ratio (Sample.with_vol_ratio None) = None
  /\ Metrics.vol_ratio (Sample.with_vol_ratio (Some (5 # 10))) = Some (5 # 10)
  /\ ~ (5 # 10) == 0
  /\ (5 # 10) <= (8 # 10)
  /\ s_vol (sub_scores Sample.log10 (Sample.with_vol_ratio (Some (5 # 10))))
     < s_vol (sub_scores Sample.log10 (Sample.with_vol_ratio None)).
Proof.
  split; [reflexivity |]. split; [reflexivity |].
  split; [discriminate |]. split; [discriminate |].
  destruct (volume_subscore_substitution Sample.log10 (Sample.with_vol_ratio None)
              (Sample.with_vol_ratio (Some (5 # 10))) (5 # 10) eq_refl eq_refl)
    as (_ & _ & H).
  apply H; discriminate.
Defined.

(** At a measured volume ratio of 0, which is at most 0.8, the sub-term is the
    same 50/3 as for an absent ratio, not strictly lower. *)
Lemma zero_volume_ratio_scores_like_absent :
  0 <= 8 # 10
  /\ s_vol (sub_scores Sample.log10 (Sample.with_vol_ratio (Some 0))) == 50 # 3
  /\ s_vol (sub_scores Sample.log10 (Sample.with_vol_ratio None)) == 50 # 3
  /\ ~ s_vol (sub_scores Sample.log10 (Sample.with_vol_ratio None))
       > s_vol (sub_scores Sample.log10 (Sample.with_vol_ratio (Some 0))).
Proof.
  split; [discriminate |]. split; [reflexivity |]. split; [reflexivity |].
  vm_compute. intros H. discriminate H.
Qed.

Lemma empty_history_stops_at_layer1_witness :
  yf_Ticker Sample.market (upper_strip Sample.market "NOHIST") = inr Sample.no_history
  /\ info Sample.no_history = inr Sample.good_info
  /\ history Sample.no_history = inr (Some [])
  /\ upside (analyze_ticker Sample.market "NOHIST" false) = None
  /\ layer1_pass (analyze_ticker Sample.market "NOHIST" false) = false
  /\ reason (analyze_ticker Sample.market "NOHIST" false)
     = "未通过 Layer 1 基本面筛选"%string.
Proof.
  split; [reflexivity |]. split; [reflexivity |]. split; [reflexivity |].
  destruct (empty_history_stops_at_layer1 Sample.market "NOHIST" false
              Sample.no_history Sample.good_info eq_refl eq_refl eq_refl)
    as (_ & _ & _ & _ & _ & U & L & _ & _ & R & _).
  split; [exact U |]. split; [exact L | exact R].
Defined.

(** A ticker with fundamentals that pass Layer 1 at any positive price and
    with an empty price history is stopped by Layer 1, not by Layer 2. *)
Lemma empty_history_is_not_a_layer2_failure :
  history Sample.no_history = inr (Some [])
  /\ layer1_pass (analyze_ticker Sample.market "NOHIST" false) = false
  /\ reason (analyze_ticker Sample.market "NOHIST" false)
     = "未通过 Layer 1 基本面筛选"%string
  /\ ~ (layer1_pass (analyze_ticker Sample.market "NOHIST" false) = true
        /\ layer2_pass (analyze_ticker Sample.market "NOHIST" false) = false
        /\ reason (analyze_ticker Sample.market "NOHIST" false)
           = "未通过 Layer 2 技术面筛选"%string).
Proof.
  split; [reflexivity |]. split; [vm_compute; reflexivity |].
  split; [vm_compute; reflexivity |].
  intros [H _]. vm_compute in H. discriminate H.
Qed.

Lemma revenue_growth_cap_witness :
  yf_Ticker Sample.market (upper_strip Sample.market "MERGER") = inr Sample.merger
  /\ info Sample.merger = inr Sample.merger_info
  /\ history Sample.merger = inr (Some (Sample.bars 125 100))
  /\ revenueGrowth Sample.merger_info = Some (250 # 100)
  /\ 2 < 250 # 100
  /\ revenue_growth (analyze_ticker Sample.market "MERGER" false) = None
  /\ layer1_pass (analyze_ticker Sample.market "MERGER" false) = false.
Proof.
  split; [reflexivity |]. split; [reflexivity |]. split; [reflexivity |].
  split; [reflexivity |]. split; [reflexivity |].
  destruct (revenue_growth_cap Sample.market "MERGER" false Sample.merger
              Sample.merger_info (Some (Sample.bars 125 100)) (250 # 100)
              eq_refl eq_refl eq_refl eq_refl eq_refl)
    as (_ & R & _ & L & _).
  split; [exact R | exact L].
Defined.

Lemma failed_retrieval_is_recorded_witness :
  retrieval_error Sample.market (upper_strip Sample.market "DOWN")
  = Some "connection reset"%string
  /\ reason (analyze_ticker Sample.market "DOWN" false)
     = "处理失败：connection reset"%string
  /\ scan Sample.market (["GOOD"%string] ++ "DOWN"%string :: ["MERGER"%string]) false
     = scan Sample.market ["GOOD"%string] false
       ++ analyze_ticker Sample.market "DOWN" false
       :: scan Sample.market ["MERGER"%string] false.
Proof.
  split; [reflexivity |].
  destruct (failed_retrieval_is_recorded Sample.market ["GOOD"%string]
              ["MERGER"%string] "DOWN" false "connection reset"%string eq_refl)
    as (_ & _ & _ & _ & R & S & _).
  split; [exact R | exact S].
Defined.

Lemma option_quote_populated_witness :
  options Sample.good = inr Sample.listing
  /\ exists m,
      get_option_metrics Sample.strptime Sample.today Sample.good 100 LONG_DTE_MONTHS
      = inr m
      /\ (Opt.layer3_pass m = true <-> has_contract Sample.good Sample.eligible).
Proof.
  split; [reflexivity |].
  destruct (option_quote_populated Sample.strptime Sample.today Sample.good 100
              LONG_DTE_MONTHS Sample.listing eq_refl) as (m & Hm & Hiff & _).
  exists m. split; [exact Hm | exact Hiff].
Defined.

(** The only long-dated contract has neither bid nor ask, and yet Layer 3
    passes with expiration and strike filled in. *)
Lemma unquoted_contract_passes_layer3 :
  (forall expiry calls c,
      option_chain Sample.unquoted expiry = inr calls -> In c calls ->
      Row.bid c = None /\ Row.ask c = None)
  /\ get_option_metrics Sample.strptime Sample.today Sample.unquoted 100 LONG_DTE_MONTHS
     = inr (Sample.quote_of Sample.unquoted)
  /\ Opt.layer3_pass (Sample.quote_of Sample.unquoted) = true
  /\ Opt.expiry (Sample.quote_of Sample.unquoted) = Some "2027-01-15"%string
  /\ Opt.strike (Sample.quote_of Sample.unquoted) = Some 100
  /\ Opt.bid (Sample.quote_of Sample.unquoted) = None
  /\ Opt.ask (Sample.quote_of Sample.unquoted) = None.
Proof.
  split.
  - intros expiry calls c. cbn [Sample.unquoted Sample.ticker_with option_chain].
    unfold Sample.unquoted_chain, Sample.no_chain.
    destruct (String.eqb expiry "2027-01-15"); [| discriminate].
    intros E. injection E as <-. intros [<- | []]. split; reflexivity.
  - repeat split; vm_compute; reflexivity.
Qed.

(** A contract whose strike cell is NaN is chosen all the same: Layer 3
    passes with the expiration, bid and ask filled in, and with neither a
    strike nor a required move. *)
Lemma absent_strike_passes_layer3 :
  get_option_metrics Sample.strptime Sample.today Cases.strikeless 100 LONG_DTE_MONTHS
  = inr (Sample.quote_of Cases.strikeless)
  /\ Opt.layer3_pass (Sample.quote_of Cases.strikeless) = true
  /\ Opt.expiry (Sample.quote_of Cases.strikeless) = Some "2027-01-15"%string
  /\ Opt.strike (Sample.quote_of Cases.strikeless) = None
  /\ Opt.bid (Sample.quote_of Cases.strikeless) = Some 8
  /\ Opt.ask (Sample.quote_of Cases.strikeless) = Some 9
  /\ Opt.required_move_for_2x_pct (Sample.quote_of Cases.strikeless) = None.
Proof. repeat split; vm_compute; reflexivity. Qed.

Lemma iv_rank_defined_witness :
  options Sample.good = inr Sample.listing
  /\ snd (select_contract Sample.good 100
            (eligible_expiries Sample.strptime Sample.today Sample.listing
                               LONG_DTE_MONTHS))
     = Some ("2027-01-15"%string,
             Row.mk (Some 105) (Some 40) (Some 8) (Some 9) (Some (40 # 100)))
  /\ exists m,
      get_option_metrics Sample.strptime Sample.today Sample.good 100 LONG_DTE_MONTHS
      = inr m
      /\ forall r, Opt.iv_rank m = Some r -> 0 <= r <= 100.
Proof.
  split; [reflexivity |]. split; [vm_compute; reflexivity |].
  destruct (iv_rank_defined Sample.strptime Sample.today Sample.good 100
              LONG_DTE_MONTHS Sample.listing "2027-01-15"
              (Row.mk (Some 105) (Some 40) (Some 8) (Some 9) (Some (40 # 100)))
              eq_refl eq_refl) as (m & Hm & _ & Hr).
  exists m. split; [exact Hm |]. intros r E.
  destruct (Hr r E) as (iv & lo & hi & _ & _ & _ & _ & _ & _ & B). exact B.
Defined.

(** Two distinct implied volatilities, 0.30 and 0.50, are observed at the
    later expirations, but the chosen contract has none: no IV rank. *)
Lemma iv_rank_absent_despite_two_observations :
  observed_iv Sample.no_iv 100 Sample.eligible (30 # 100)
  /\ observed_iv Sample.no_iv 100 Sample.eligible (50 # 100)
  /\ ~ (30 # 100) == (50 # 100)
  /\ get_option_metrics Sample.strptime Sample.today Sample.no_iv 100 LONG_DTE_MONTHS
     = inr (Sample.quote_of Sample.no_iv)
  /\ Opt.layer3_pass (Sample.quote_of Sample.no_iv) = true
  /\ Opt.iv_rank (Sample.quote_of Sample.no_iv) = None.
Proof.
  split; [| split; [| split; [discriminate | repeat split; vm_compute; reflexivity]]].
  - exists "2027-06-18"%string, 20987%Z,
      (Row.mk (Some 100) (Some 5) (Some 10) (Some 11) (Some (30 # 100))).
    split; [vm_compute; tauto |]. repeat split; reflexivity.
  - exists "2028-01-21"%string, 21204%Z,
      (Row.mk (Some 100) (Some 5) (Some 14) (Some 16) (Some (50 # 100))).
    split; [vm_compute; tauto |]. repeat split; reflexivity.
Qed.

Lemma required_move_to_double_witness :
  get_option_metrics Sample.strptime Sample.today Sample.good 100 LONG_DTE_MONTHS
  = inr (Sample.quote_of Sample.good)
  /\ Opt.strike (Sample.quote_of Sample.good) = Some 105
  /\ Opt.bid (Sample.quote_of Sample.good) = Some 8
  /\ Opt.ask (Sample.quote_of Sample.good) = Some 9
  /\ 0 < 100
  /\ 0 < 9
  /\ exists v,
      Opt.required_move_for_2x_pct (Sample.quote_of Sample.good) = Some v
      /\ v == 22.
Proof.
  assert (Hm : get_option_metrics Sample.strptime Sample.today Sample.good 100
                                  LONG_DTE_MONTHS
               = inr (Sample.quote_of Sample.good)) by (vm_compute; reflexivity).
  assert (Hk : Opt.strike (Sample.quote_of Sample.good) = Some 105)
    by (vm_compute; reflexivity).
  assert (Hb : Opt.bid (Sample.quote_of Sample.good) = Some 8)
    by (vm_compute; reflexivity).
  assert (Ha : Opt.ask (Sample.quote_of Sample.good) = Some 9)
    by (vm_compute; reflexivity).
  assert (Hs : 0 < 100) by reflexivity.
  assert (Hp : 0 < 9) by reflexivity.
  repeat (split; [assumption |]).
  destruct (required_move_to_double Sample.strptime Sample.today Sample.good 100
              LONG_DTE_MONTHS (Sample.quote_of Sample.good) 105 8 9
              Hm Hk Hb Ha Hs) as [H _].
  destruct (H Hp) as (v & Hv & _ & Ex).
  exists v. split; [exact Hv |]. apply Ex; reflexivity.
Defined.

(** Strike 105, bid 0 and ask 0 are all present and the spot is 100, yet the
    required move is absent (the formula would give 5). *)
Lemma zero_ask_has_no_required_move :
  get_option_metrics Sample.strptime Sample.today Sample.zero_ask 100 LONG_DTE_MONTHS
  = inr (Sample.quote_of Sample.zero_ask)
  /\ Opt.strike (Sample.quote_of Sample.zero_ask) = Some 105
  /\ Opt.bid (Sample.quote_of Sample.zero_ask) = Some 0
  /\ Opt.ask (Sample.quote_of Sample.zero_ask) = Some 0
  /\ 0 < 100
  /\ ((105 + 2 * ((0 + 0) / 2)) / 100 - 1) * 100 == 5
  /\ Opt.required_move_for_2x_pct (Sample.quote_of Sample.zero_ask) = None.
Proof. repeat split; vm_compute; reflexivity. Qed.

(** * Further properties of the screener *)

From Stdlib Require Import Sorted.

(** ** Stable insertion sort *)

Section SortOrder.

Context {A : Type} (le : A -> A -> bool).
Hypothesis le_total : forall a b, le a b = true \/ le b a = true.
Hypothesis le_trans : forall a b c, le a b = true -> le b c = true -> le a c = true.

Lemma insert_by_sorted (x : A) (l : list A) :
  StronglySorted (fun a b => le a b = true) l ->
  StronglySorted (fun a b => le a b = true) (insert_by le x l).
Proof.
  induction 1 as [| y r Hs IH Hall]; cbn [insert_by].
  - constructor; constructor.
  - destruct (le x y) eqn:E.
    + constructor; [constructor; assumption |].
      constructor; [exact E |].
      rewrite Forall_forall in *. intros z Hz. eapply le_trans; eauto.
    + constructor; [exact IH |].
      rewrite Forall_forall in *. intros z Hz.
      apply insert_by_In in Hz. destruct Hz as [-> | Hz]; [| auto].
      destruct (le_total x y) as [T | T]; [congruence | exact T].
Qed.

Lemma sort_by_sorted (l : list A) :
  StronglySorted (fun a b => le a b = true) (sort_by le l).
Proof.
  induction l as [| x r IH]; cbn [sort_by fold_right]; [constructor |].
  apply insert_by_sorted. exact IH.
Qed.

Lemma sort_by_head_least (l : list A) (h : A) :
  hd_error (sort_by le l) = Some h ->
  forall x, In x l -> le h x = true.
Proof.
  intros H x Hx. apply (sort_by_In le) in Hx.
  pose proof (sort_by_sorted l) as S.
  destruct (sort_by le l) as [| y r]; [discriminate |].
  injection H as ->. inversion S as [| ? ? _ Hall]; subst.
  destruct Hx as [<- | Hx].
  - destruct (le_total h h); assumption.
  - rewrite Forall_forall in Hall. auto.
Qed.

End SortOrder.

Lemma row_before_spec (spot : Q) (a b : Row.t) :
  row_before spot a b = true
  <-> match dist spot a, dist spot b with
      | Some x, Some y => x < y \/ (x == y /\ oi_not_after a b)
      | Some _, None => True
      | None, Some _ => False
      | None, None => oi_not_after a b
      end.
Proof.
  unfold row_before, oi_not_after, key_ltb, key_eqb.
  destruct (dist spot a) as [x |], (dist spot b) as [y |];
    destruct (Row.openInterest a) as [p |], (Row.openInterest b) as [q |];
    repeat match goal with
           | |- context [Py.ltb ?u ?v] => destruct (ltb_reflect u v)
           | |- context [Qeq_bool ?u ?v] => destruct (eqb_reflect u v)
           end;
    cbn [orb andb]; split; intros H; try reflexivity; try discriminate;
    try tauto; try lra; try (right; split; [assumption | lra]);
    try (exfalso; lra);
    try (destruct H as [H | [H1 H2]]; try contradiction; try lra; exfalso; lra);
    try (exfalso; match goal with N : ~ ?u == ?v |- _ => apply N; lra end).
Qed.

Lemma oi_not_after_total (a b : Row.t) : oi_not_after a b \/ oi_not_after b a.
Proof.
  unfold oi_not_after.
  destruct (Row.openInterest a) as [p |], (Row.openInterest b) as [q |]; auto.
  destruct (Qlt_le_dec p q); [right | left]; lra.
Qed.

Lemma oi_not_after_trans (a b c : Row.t) :
  oi_not_after a b -> oi_not_after b c -> oi_not_after a c.
Proof.
  unfold oi_not_after.
  destruct (Row.openInterest a) as [p |], (Row.openInterest b) as [q |],
    (Row.openInterest c) as [r |]; intros H1 H2; auto; try contradiction; lra.
Qed.

Lemma row_before_total (spot : Q) (a b : Row.t) :
  row_before spot a b = true \/ row_before spot b a = true.
Proof.
  rewrite !row_before_spec.
  destruct (dist spot a) as [x |], (dist spot b) as [y |]; auto.
  - destruct (Qlt_le_dec x y) as [L | L]; [left; left; exact L |].
    destruct (Qlt_le_dec y x) as [L' | L']; [right; left; exact L' |].
    destruct (oi_not_after_total a b) as [O | O];
      [left | right]; right; (split; [lra | exact O]).
  - apply oi_not_after_total.
Qed.

Lemma row_before_trans (spot : Q) (a b c : Row.t) :
  row_before spot a b = true -> row_before spot b c = true ->
  row_before spot a c = true.
Proof.
  rewrite !row_before_spec.
  destruct (dist spot a) as [x |], (dist spot b) as [y |], (dist spot c) as [z |];
    intros H1 H2; auto; try contradiction.
  - destruct H1 as [H1 | [H1 H1']]; destruct H2 as [H2 | [H2 H2']].
    + left. lra.
    + left. lra.
    + left. lra.
    + right. split; [lra | eapply oi_not_after_trans; eassumption].
  - eapply oi_not_after_trans; eassumption.
Qed.

(** X1.  The ATM call is a row of the chain.  When some row has a strike, so
    has the ATM call, at the least distance from the spot; among the rows at
    that distance none has a greater open interest, rows without an open
    interest counting least. *)
Theorem pick_atm_call_nearest (calls : list Row.t) (spot : Q) (atm : Row.t) :
  pick_atm_call calls (Some spot) = Some atm ->
  In atm calls
  /\ forall c k, In c calls -> Row.strike c = Some k ->
       exists ka,
         Row.strike atm = Some ka
         /\ Qabs (ka - spot) <= Qabs (k - spot)
         /\ (Qabs (k - spot) == Qabs (ka - spot) ->
             forall oc, Row.openInterest c = Some oc ->
                        exists oa, Row.openInterest atm = Some oa /\ oc <= oa).
Proof.
  intros H. destruct calls as [| c0 r]; [discriminate |].
  cbn [pick_atm_call] in H. split.
  - apply (sort_by_In (row_before spot)).
    destruct (sort_by (row_before spot) (c0 :: r)); [discriminate |].
    injection H as ->. left. reflexivity.
  - intros c k Hc Hk.
    pose proof (sort_by_head_least (row_before spot) (row_before_total spot)
                  (row_before_trans spot) (c0 :: r) atm H c Hc) as L.
    apply row_before_spec in L. unfold dist, oi_not_after in L. rewrite Hk in L.
    destruct (Row.strike atm) as [ka |]; [| contradiction].
    exists ka. split; [reflexivity |].
    destruct L as [L | [L1 L2]].
    + split; [lra |]. intros E. exfalso. lra.
    + split; [lra |]. intros _ oc Hoc. rewrite Hoc in L2.
      destruct (Row.openInterest atm) as [oa |]; [| contradiction].
      exists oa. split; [reflexivity | exact L2].
Qed.

Lemma pick_atm_call_nearest_witness :
  pick_atm_call [Row.mk (Some 95) (Some 10) (Some 12) (Some 13) (Some (45 # 100));
                 Row.mk (Some 105) (Some 40) (Some 8) (Some 9) (Some (40 # 100))]
                (Some 100)
  = Some (Row.mk (Some 105) (Some 40) (Some 8) (Some 9) (Some (40 # 100)))
  /\ forall c k,
      In c [Row.mk (Some 95) (Some 10) (Some 12) (Some 13) (Some (45 # 100));
            Row.mk (Some 105) (Some 40) (Some 8) (Some 9) (Some (40 # 100))] ->
      Row.strike c = Some k ->
      Qabs (105 - 100) <= Qabs (k - 100).
Proof.
  split; [reflexivity |]. intros c k Hc Hk.
  destruct (pick_atm_call_nearest
              [Row.mk (Some 95) (Some 10) (Some 12) (Some 13) (Some (45 # 100));
               Row.mk (Some 105) (Some 40) (Some 8) (Some 9) (Some (40 # 100))] 100
              (Row.mk (Some 105) (Some 40) (Some 8) (Some 9) (Some (40 # 100)))
              eq_refl) as [_ H].
  destruct (H c k Hc Hk) as (ka & Eka & L & _).
  injection Eka as <-. exact L.
Defined.

(** ** Eligible expirations and the chosen contract *)

Lemma valid_expiries_of_In (strptime : string -> option Z) (cutoff : Z)
      (options : list string) (d : string) (dd : Z) :
  In (d, dd) (valid_expiries_of strptime cutoff options)
  <-> In d options /\ strptime d = Some dd /\ (cutoff < dd)%Z.
Proof.
  induction options as [| o rest IH]; cbn [valid_expiries_of In]; [tauto |].
  destruct (strptime o) as [od |] eqn:E.
  - destruct (Z.ltb_spec cutoff od) as [L | L]; cbn [In]; rewrite IH; split.
    + intros [H | H]; [injection H as <- <-; auto | tauto].
    + intros ([<- | H] & P & C); [left; congruence | right; auto].
    + tauto.
    + intros ([<- | H] & P & C); [| auto].
      exfalso. rewrite E in P. injection P as <-. lia.
  - rewrite IH. split; [tauto |].
    intros ([<- | H] & P & C); [congruence | auto].
Qed.

Lemma by_date_total (a b : string * Z) : by_date a b = true \/ by_date b a = true.
Proof. unfold by_date. rewrite !Z.leb_le. lia. Qed.

Lemma by_date_trans (a b c : string * Z) :
  by_date a b = true -> by_date b c = true -> by_date a c = true.
Proof. unfold by_date. rewrite !Z.leb_le. lia. Qed.

(** X2.  The eligible expirations are exactly the listed strings that parse
    to a date strictly after today + 30 * [min_months] days, and they are
    ordered by ascending date. *)
Theorem eligible_expiries_spec (strptime : string -> option Z) (today : Z)
        (options : list string) (min_months : Z) :
  (forall d dd,
      In (d, dd) (eligible_expiries strptime today options min_months)
      <-> In d options /\ strptime d = Some dd /\ (today + min_months * 30 < dd)%Z)
  /\ StronglySorted (fun a b => (snd a <= snd b)%Z)
       (eligible_expiries strptime today options min_months).
Proof.
  unfold eligible_expiries. split.
  - intros d dd. rewrite (sort_by_In by_date). apply valid_expiries_of_In.
  - pose proof (sort_by_sorted by_date by_date_total by_date_trans
                  (valid_expiries_of strptime (today + min_months * 30) options)) as S.
    induction S as [| x r S IH Hall]; constructor; [exact IH |].
    rewrite Forall_forall in *. intros y Hy. apply Z.leb_le. apply (Hall y Hy).
Qed.

Lemma fallback_call_first (tk : Ticker) (spot : Q) (l : list (string * Z)) e c :
  fallback_call tk spot l = Some (e, c) ->
  exists l1 d l2,
    l = l1 ++ (e, d) :: l2
    /\ (forall e' d', In (e', d') l1 -> atm_of tk spot e' = None)
    /\ atm_of tk spot e = Some c.
Proof.
  induction l as [| [x dx] rest IH]; intros H; [discriminate |].
  rewrite fallback_call_step in H. destruct (atm_of tk spot x) as [a |] eqn:E.
  - injection H as <- <-. exists [], dx, rest. split; [reflexivity |].
    split; [intros ? ? [] | exact E].
  - destruct (IH H) as (l1 & d & l2 & -> & N & S).
    exists ((x, dx) :: l1), d, l2. split; [reflexivity |]. split; [| exact S].
    intros e' d' [Hin | Hin]; [injection Hin as <- <-; exact E | eauto].
Qed.

(** X3.  The contract behind a passing result is the ATM call of the first
    eligible expiration, in ascending date order, that yields one; the
    result carries that expiration and the contract's strike, bid and ask. *)
Theorem chosen_contract_is_first_available (strptime : string -> option Z)
        (today : Z) (tk : Ticker) (spot : Q) (months : Z) os m e :
  options tk = inr os ->
  get_option_metrics strptime today tk spot months = inr m ->
  Opt.expiry m = Some e ->
  exists l1 d l2 c,
    eligible_expiries strptime today os months = l1 ++ (e, d) :: l2
    /\ (forall e' d', In (e', d') l1 -> atm_of tk spot e' = None)
    /\ atm_of tk spot e = Some c
    /\ Opt.strike m = Row.strike c
    /\ Opt.bid m = Row.bid c
    /\ Opt.ask m = Row.ask c.
Proof.
  intros Hos Hm He.
  destruct (get_option_metrics_returns strptime today tk spot months os Hos)
    as (m' & Hm' & S).
  rewrite Hm' in Hm. injection Hm as ->.
  set (l := eligible_expiries strptime today os months) in *.
  destruct (snd (select_contract tk spot l)) as [[e0 c] |] eqn:Sel.
  2:{ destruct S as [why ->]. discriminate. }
  subst m. cbn [quote_metrics Opt.expiry Opt.strike Opt.bid Opt.ask] in *.
  injection He as ->.
  assert (F : exists l1 d l2,
             l = l1 ++ (e, d) :: l2
             /\ (forall e' d', In (e', d') l1 -> atm_of tk spot e' = None)
             /\ atm_of tk spot e = Some c).
  { unfold select_contract in Sel. destruct l as [| [p d] rest]; [discriminate |].
    pose proof (collect_atm_chosen tk spot p ((p, d) :: rest) [] None) as Hc.
    destruct (collect_atm tk spot p ((p, d) :: rest) [] None) as [ivs [a |]];
      cbn [snd] in Sel, Hc.
    - injection Sel as <- <-.
      destruct (Hc a eq_refl) as [Hc' | [_ Hc']]; [discriminate |].
      exists [], d, rest. split; [reflexivity |]. split; [intros ? ? [] | exact Hc'].
    - apply fallback_call_first. exact Sel. }
  destruct F as (l1 & d & l2 & E & N & Hatm).
  exists l1, d, l2, c. repeat split; auto.
Qed.

Lemma chosen_contract_is_first_available_witness :
  options Cases.late = inr Sample.listing
  /\ get_option_metrics Sample.strptime Sample.today Cases.late 100 LONG_DTE_MONTHS
     = inr (Sample.quote_of Cases.late)
  /\ Opt.expiry (Sample.quote_of Cases.late) = Some "2027-06-18"%string
  /\ exists l1 d l2,
      Sample.eligible = l1 ++ ("2027-06-18"%string, d) :: l2
      /\ forall e' d', In (e', d') l1 -> atm_of Cases.late 100 e' = None.
Proof.
  assert (Hm : get_option_metrics Sample.strptime Sample.today Cases.late 100
                                  LONG_DTE_MONTHS
               = inr (Sample.quote_of Cases.late)) by (vm_compute; reflexivity).
  assert (He : Opt.expiry (Sample.quote_of Cases.late) = Some "2027-06-18"%string)
    by (vm_compute; reflexivity).
  split; [reflexivity |]. split; [exact Hm |]. split; [exact He |].
  destruct (chosen_contract_is_first_available Sample.strptime Sample.today
              Cases.late 100 LONG_DTE_MONTHS Sample.listing
              (Sample.quote_of Cases.late) "2027-06-18" eq_refl Hm He)
    as (l1 & d & l2 & c & E & N & _).
  exists l1, d, l2. split; [exact E | exact N].
Defined.

(** X4.  The reason of the selector's result names the first stage that
    fails: an empty listing, no expiration beyond the cutoff, or eligible
    expirations without any contract; otherwise it is "OK". *)
Theorem selector_reason (strptime : string -> option Z) (today : Z)
        (tk : Ticker) (spot : Q) (months : Z) os m :
  options tk = inr os ->
  get_option_metrics strptime today tk spot months = inr m ->
  (os = [] -> Opt.reason m = "无可用期权链"%string)
  /\ (os <> [] -> eligible_expiries strptime today os months = [] ->
      Opt.reason m = ("无>" ++ string_of_Z months ++ "个月到期期权")%string)
  /\ (eligible_expiries strptime today os months <> [] ->
      ~ has_contract tk (eligible_expiries strptime today os months) ->
      Opt.reason m = "长期期权存在但无可用ATM Call"%string)
  /\ (has_contract tk (eligible_expiries strptime today os months) ->
      Opt.reason m = "OK"%string).
Proof.
  intros Hos Hm.
  assert (P : Opt.layer3_pass m = true
              <-> has_contract tk (eligible_expiries strptime today os months)).
  { destruct (get_option_metrics_returns strptime today tk spot months os Hos)
      as (m' & Hm' & S).
    rewrite Hm' in Hm. injection Hm as ->.
    destruct (snd (select_contract tk spot _)) as [[e c] |] eqn:Sel.
    - subst m. cbn [quote_metrics Opt.layer3_pass]. split; [intros _ | reflexivity].
      destruct (select_contract_some _ _ _ _ _ Sel) as [[dd Hin] Hatm].
      destruct (proj1 (atm_of_some tk spot e) (ex_intro _ c Hatm)) as (calls & Hc & N).
      exists e, dd, calls. auto.
    - destruct S as [why ->]. cbn [Opt.failed Opt.layer3_pass].
      split; [discriminate |]. intros (e & dd & calls & Hin & Hc & N). exfalso.
      destruct (proj2 (atm_of_some tk spot e) (ex_intro _ calls (conj Hc N)))
        as [atm Hatm].
      rewrite (select_contract_none _ _ _ Sel e dd Hin) in Hatm. discriminate. }
  unfold get_option_metrics in Hm. rewrite Hos in Hm. cbn [bind] in Hm.
  destruct os as [| o os'].
  - injection Hm as <-. cbn [Opt.failed Opt.reason Opt.layer3_pass] in *.
    split; [reflexivity |]. split; [congruence |].
    split; [intros N; exfalso; apply N; reflexivity |].
    intros H. apply P in H. discriminate.
  - destruct (eligible_expiries strptime today (o :: os') months) as [| p l] eqn:E.
    + injection Hm as <-. cbn [Opt.failed Opt.reason Opt.layer3_pass] in *.
      split; [discriminate |]. split; [reflexivity |].
      split; [congruence |]. intros H. apply P in H. discriminate.
    + destruct (select_contract tk spot (p :: l)) as [ivs [[e c] |]];
        injection Hm as <-; cbn [Opt.failed quote_metrics Opt.reason Opt.layer3_pass] in *.
      * split; [discriminate |]. split; [discriminate |].
        split; [| reflexivity]. intros _ N. exfalso. apply N, P. reflexivity.
      * split; [discriminate |]. split; [discriminate |].
        split; [reflexivity |]. intros H. apply P in H. discriminate.
Qed.

Lemma selector_reason_witness :
  options Sample.good = inr Sample.listing
  /\ get_option_metrics Sample.strptime Sample.today Sample.good 100 LONG_DTE_MONTHS
     = inr (Sample.quote_of Sample.good)
  /\ has_contract Sample.good Sample.eligible
  /\ Opt.reason (Sample.quote_of Sample.good) = "OK"%string.
Proof.
  assert (Hm : get_option_metrics Sample.strptime Sample.today Sample.good 100
                                  LONG_DTE_MONTHS
               = inr (Sample.quote_of Sample.good)) by (vm_compute; reflexivity).
  assert (Hc : has_contract Sample.good Sample.eligible).
  { exists "2027-06-18"%string, 20987%Z,
      [Row.mk (Some 100) (Some 5) (Some 10) (Some 11) (Some (30 # 100))].
    split; [vm_compute; tauto |]. split; [reflexivity | discriminate]. }
  split; [reflexivity |]. split; [exact Hm |]. split; [exact Hc |].
  destruct (selector_reason Sample.strptime Sample.today Sample.good 100
              LONG_DTE_MONTHS Sample.listing (Sample.quote_of Sample.good)
              eq_refl Hm) as (_ & _ & _ & H).
  exact (H Hc).
Defined.

(** ** What the evidence holds, field by field *)

Lemma evidence_eps_growth (i : Info) (tech : Tech.t) qe :
  Ev.eps_growth (evidence i tech qe)
  = match earningsGrowth i with
    | Some g => if Py.gtb (Qabs g) EPS_GROWTH_CAP then None else Some g
    | None => None
    end.
Proof. unfold evidence. split_matches; reflexivity. Qed.

Lemma evidence_eps_growth_forward (i : Info) (tech : Tech.t) qe :
  Ev.eps_growth_forward (evidence i tech qe)
  = match trailingEps i, forwardEps i with
    | Some t, Some f =>
        if Py.gtb (Qabs t) (1 # 100) then
          if Py.gtb (Qabs ((f - t) / Qabs t)) EPS_GROWTH_CAP then None
          else if Py.ltb (Qabs t) (50 # 100) && Py.gtb f 5 then None
               else Some ((f - t) / Qabs t)
        else None
    | _, _ => None
    end.
Proof. unfold evidence. split_matches; reflexivity. Qed.

Lemma evidence_eps (i : Info) (tech : Tech.t) qe :
  Ev.trailing_eps (evidence i tech qe) = trailingEps i
  /\ Ev.forward_eps (evidence i tech qe) = forwardEps i
  /\ Ev.market_cap (evidence i tech qe) = marketCap i.
Proof. unfold evidence. split_matches; repeat split; reflexivity. Qed.

Lemma evidence_upside (i : Info) (tech : Tech.t) qe :
  Ev.upside (evidence i tech qe)
  = match match targetMeanPrice i with
          | None => targetMedianPrice i
          | Some tp => Some tp
          end, Tech.price tech with
    | Some tp, Some p => if Py.gtb p 0 then Some (tp / p - 1) else None
    | _, _ => None
    end.
Proof. unfold evidence. split_matches; reflexivity. Qed.

Lemma evidence_flags_peg (i : Info) (tech : Tech.t) qe (p : Q) :
  pegRatio i = Some p -> p < 2 # 10 ->
  In (PegFlag p) (Ev.sanity_flags (evidence i tech qe)).
Proof.
  intros Hp Hlow. unfold evidence. rewrite Hp. cbv beta iota zeta.
  destruct (ltb_reflect p (2 # 10)) as [_ | N]; [| contradiction].
  split_matches; cbn [Ev.sanity_flags]; apply eps_volatility_check_keeps;
    repeat rewrite in_app_iff; cbn [In]; tauto.
Qed.

Lemma evidence_flags_low_base (i : Info) (tech : Tech.t) qe (t f : Q) :
  trailingEps i = Some t -> forwardEps i = Some f ->
  Qabs t < 50 # 100 -> 5 < f ->
  In (LowBaseFlag t f) (Ev.sanity_flags (evidence i tech qe)).
Proof.
  intros Ht Hf Hlow Hhigh. unfold evidence. rewrite Ht, Hf. cbv beta iota zeta.
  destruct (ltb_reflect (Qabs t) (50 # 100)) as [_ | N]; [| contradiction].
  destruct (gtb_reflect f 5) as [_ | N]; [| contradiction].
  cbn [andb]. split_matches; cbn [Ev.sanity_flags]; apply eps_volatility_check_keeps;
    repeat rewrite in_app_iff; cbn [In]; tauto.
Qed.

(** ** Outcomes of the funnel *)

Lemma get_option_metrics_raises (strptime : string -> option Z) (today : Z)
      (tk : Ticker) (spot : Q) (months : Z) (e : exn) :
  get_option_metrics strptime today tk spot months = inl e <-> options tk = inl e.
Proof.
  split.
  - intros H. destruct (options tk) as [x | os] eqn:Hos.
    + unfold get_option_metrics in H. rewrite Hos in H. cbn [bind] in H.
      congruence.
    + destruct (get_option_metrics_returns strptime today tk spot months os Hos)
        as (m & Hm & _). congruence.
  - intros H. unfold get_option_metrics. rewrite H. reflexivity.
Qed.

Lemma quote_metrics_populated (spot : Q) (e : string) (c : Row.t) (ivs : list Q) :
  Opt.layer3_pass (quote_metrics spot e c ivs) = true
  /\ Opt.expiry (quote_metrics spot e c ivs) = Some e
  /\ Opt.strike (quote_metrics spot e c ivs) = Row.strike c.
Proof. repeat split. Qed.

Lemma stopped_outcome (t : string) (l1 l2 b1 b2 : bool) (why : string)
      (ev : Ev.t) (tech : Tech.t) (spot : Q) :
  l1 = b1 -> l2 = b2 ->
  carries (stopped t l1 l2 why ev tech) ev tech
  /\ layer1_pass (stopped t l1 l2 why ev tech) = b1
  /\ layer2_pass (stopped t l1 l2 why ev tech) = b2
  /\ (layer3_pass (stopped t l1 l2 why ev tech) = true ->
      layer2_pass (stopped t l1 l2 why ev tech) = true
      /\ exists e c ivs,
          leap_expiry (stopped t l1 l2 why ev tech) = Some e
          /\ leap_strike (stopped t l1 l2 why ev tech) = Row.strike c
          /\ call_bid (stopped t l1 l2 why ev tech) = Row.bid c
          /\ call_ask (stopped t l1 l2 why ev tech) = Row.ask c
          /\ iv_rank (stopped t l1 l2 why ev tech)
             = Opt.iv_rank (quote_metrics spot e c ivs)).
Proof.
  intros E1 E2. split; [repeat split |]. split; [exact E1 |].
  split; [exact E2 |]. intros X. discriminate X.
Qed.

Section FunnelOutcomes.

Variable w : Collaborators.

(** Every result is the [except] record or reports the evidence gathered
    from the fetched data, with flags that follow the layers. *)
Lemma analyze_ticker_outcome (t : string) (rvs : bool) :
  (exists e, analyze_ticker w t rvs = processing_failed (upper_strip w t) e)
  \/ exists tk i hist,
      yf_Ticker w (upper_strip w t) = inr tk
      /\ info tk = inr i
      /\ history tk = inr hist
      /\ carries (analyze_ticker w t rvs)
           (evidence i (get_technical_metrics (rsi_last w) hist) (quarterly_earnings tk))
           (get_technical_metrics (rsi_last w) hist)
      /\ layer1_pass (analyze_ticker w t rvs)
         = layer1 (evidence i (get_technical_metrics (rsi_last w) hist)
                            (quarterly_earnings tk))
      /\ layer2_pass (analyze_ticker w t rvs)
         = layer1 (evidence i (get_technical_metrics (rsi_last w) hist)
                            (quarterly_earnings tk))
           && layer2 (get_technical_metrics (rsi_last w) hist) rvs
      /\ (layer3_pass (analyze_ticker w t rvs) = true ->
          layer2_pass (analyze_ticker w t rvs) = true
          /\ exists e c ivs,
              leap_expiry (analyze_ticker w t rvs) = Some e
              /\ leap_strike (analyze_ticker w t rvs) = Row.strike c
              /\ call_bid (analyze_ticker w t rvs) = Row.bid c
              /\ call_ask (analyze_ticker w t rvs) = Row.ask c
              /\ iv_rank (analyze_ticker w t rvs)
                 = Opt.iv_rank (quote_metrics
                                  (Py.or_else (Tech.price (get_technical_metrics (rsi_last w) hist)) 0)
                                  e c ivs)).
Proof.
  unfold analyze_ticker, analyze_body.
  destruct (yf_Ticker w (upper_strip w t)) as [e | tk] eqn:Htk; cbn [bind]; [left; eauto |].
  destruct (info tk) as [e | i] eqn:Hi; cbn [bind]; [left; eauto |].
  destruct (history tk) as [e | hist] eqn:Hh; cbn [bind]; [left; eauto |].
  unfold layers.
  set (tech := get_technical_metrics (rsi_last w) hist).
  set (ev := evidence i tech (quarterly_earnings tk)).
  destruct (layer1 ev) eqn:L1; cbn [negb ret].
  2:{ right. exists tk, i, hist. fold tech. fold ev. rewrite L1.
      split; [reflexivity |]. split; [exact Hi |]. split; [exact Hh |].
      apply stopped_outcome; reflexivity. }
  destruct (layer2 tech rvs) eqn:L2; cbn [negb ret].
  2:{ right. exists tk, i, hist. fold tech. fold ev. rewrite L1, L2.
      split; [reflexivity |]. split; [exact Hi |]. split; [exact Hh |].
      apply stopped_outcome; reflexivity. }
  destruct (get_option_metrics _ _ _ _ _) as [e | opt] eqn:G; cbn [bind]; [left; eauto |].
  destruct (Opt.layer3_pass opt) eqn:L3; cbn [negb ret].
  2:{ right. exists tk, i, hist. fold tech. fold ev. rewrite L1, L2.
      split; [reflexivity |]. split; [exact Hi |]. split; [exact Hh |].
      apply stopped_outcome; reflexivity. }
  right. exists tk, i, hist. fold tech. fold ev. rewrite L1, L2.
  split; [reflexivity |]. split; [exact Hi |]. split; [exact Hh |].
  split; [repeat split |]. split; [reflexivity |]. split; [reflexivity |].
  intros _. split; [reflexivity |].
  destruct (get_option_metrics_shape _ _ _ _ _ _ G) as [[why ->] | (e & c & ivs & ->)];
    [discriminate |].
  exists e, c, ivs. unfold ev. rewrite evidence_price. repeat split.
Qed.

End FunnelOutcomes.

Lemma present_gt_true (o : option Q) (bound : Q) :
  present_gt o bound = true <-> exists v, o = Some v /\ bound < v.
Proof.
  destruct o as [v |]; cbn [present_gt].
  - destruct (gtb_reflect v bound) as [H | H]; split.
    + intros _. eauto.
    + reflexivity.
    + discriminate.
    + intros (v' & E & L). injection E as <-. contradiction.
  - split; [discriminate | intros (v & E & _); discriminate].
Qed.

Lemma present_lt_true (o : option Q) (bound : Q) :
  present_lt o bound = true <-> exists v, o = Some v /\ v < bound.
Proof.
  destruct o as [v |]; cbn [present_lt].
  - destruct (ltb_reflect v bound) as [H | H]; split.
    + intros _. eauto.
    + reflexivity.
    + discriminate.
    + intros (v' & E & L). injection E as <-. contradiction.
  - split; [discriminate | intros (v & E & _); discriminate].
Qed.

Lemma flags_or_none_In (fl : list SanityFlag) (f : SanityFlag) :
  In f fl -> exists fl', flags_or_none fl = Some fl' /\ In f fl'.
Proof.
  destruct fl as [| x r]; [contradiction |]. intros H.
  exists (x :: r). split; [reflexivity | exact H].
Qed.

Section FunnelProperties.

Variable w : Collaborators.

(** With the handle, [info], the history and the expiration listing all
    readable, the result reports the evidence. *)
Lemma analyze_ticker_carries (t : string) (rvs : bool) tk i hist os :
  yf_Ticker w (upper_strip w t) = inr tk ->
  info tk = inr i ->
  history tk = inr hist ->
  options tk = inr os ->
  carries (analyze_ticker w t rvs)
    (evidence i (get_technical_metrics (rsi_last w) hist) (quarterly_earnings tk))
    (get_technical_metrics (rsi_last w) hist).
Proof.
  intros Htk Hi Hh Hos.
  rewrite (analyze_ticker_fetched w t rvs tk i hist Htk Hi Hh). unfold layers.
  destruct (negb (layer1 _)); cbn [ret]; [repeat split |].
  destruct (negb (layer2 _ _)); cbn [ret]; [repeat split |].
  destruct (get_option_metrics_returns (strptime w) (today w) tk
              (Py.or_else (Ev.price (evidence i (get_technical_metrics (rsi_last w) hist)
                                              (quarterly_earnings tk))) 0)
              LONG_DTE_MONTHS os Hos) as (opt & Hopt & _).
  rewrite Hopt. cbn [bind].
  destruct (negb (Opt.layer3_pass opt)); cbn [ret]; repeat split.
Qed.

(** X5.  The layer flags are nested: a result that passed Layer 2 passed
    Layer 1, and one that passed Layer 3 passed Layer 2. *)
Theorem layer_flags_are_nested (t : string) (rvs : bool) :
  (layer2_pass (analyze_ticker w t rvs) = true ->
   layer1_pass (analyze_ticker w t rvs) = true)
  /\ (layer3_pass (analyze_ticker w t rvs) = true ->
      layer2_pass (analyze_ticker w t rvs) = true).
Proof.
  destruct (analyze_ticker_outcome w t rvs)
    as [[e ->] | (tk & i & hist & _ & _ & _ & _ & L1 & L2 & L3)].
  - split; intros X; discriminate X.
  - split.
    + rewrite L1, L2. intros X. apply andb_true_iff in X. apply X.
    + intros X. apply (L3 X).
Qed.

(** X6.  A result that passed Layer 1 reports a revenue growth in (10%, 200%],
    a quarterly or forward EPS growth in (15%, 400%], a PEG below 2, a market
    capitalisation above 5e9, an upside above 15% and a positive price. *)
Theorem layer1_pass_thresholds (t : string) (rvs : bool) :
  layer1_pass (analyze_ticker w t rvs) = true ->
  (exists g, revenue_growth (analyze_ticker w t rvs) = Some g
             /\ 10 # 100 < g /\ g <= 2)
  /\ ((exists g, eps_growth (analyze_ticker w t rvs) = Some g
                 /\ 15 # 100 < g /\ g <= 4)
      \/ (exists g, eps_growth_forward (analyze_ticker w t rvs) = Some g
                    /\ 15 # 100 < g /\ g <= 4))
  /\ (exists p, peg (analyze_ticker w t rvs) = Some p /\ p < 2)
  /\ (exists c, market_cap (analyze_ticker w t rvs) = Some c /\ 5000000000 < c)
  /\ (exists u p, upside (analyze_ticker w t rvs) = Some u /\ 15 # 100 < u
                  /\ current_price (analyze_ticker w t rvs) = Some p /\ 0 < p).
Proof.
  intros H.
  destruct (analyze_ticker_outcome w t rvs)
    as [[e E] | (tk & i & hist & _ & _ & _ & C & L1 & _)].
  { rewrite E in H. discriminate H. }
  destruct C as (Cp & Cr & Ce & Cf & _ & _ & Cpeg & Cm & Cu & _).
  rewrite Cp, Cr, Ce, Cf, Cpeg, Cm, Cu. rewrite L1 in H. clear L1 Cp Cr Ce Cf Cpeg Cm Cu.
  set (tech := get_technical_metrics (rsi_last w) hist) in *.
  set (qe := quarterly_earnings tk) in *.
  rewrite layer1_clauses in H. repeat rewrite andb_true_iff in H.
  destruct H as ((((Hr & He) & Hp) & Hm) & Hu).
  unfold revenue_clause in Hr. apply present_gt_true in Hr. destruct Hr as (g & Eg & Lg).
  unfold peg_clause in Hp. apply present_lt_true in Hp.
  unfold market_cap_clause in Hm. apply present_gt_true in Hm.
  unfold upside_clause in Hu. apply present_gt_true in Hu. destruct Hu as (u & Eu & Lu).
  split; [| split; [| split; [exact Hp | split; [exact Hm |]]]].
  - exists g. split; [exact Eg |]. split; [exact Lg |].
    rewrite evidence_rev_growth in Eg. destruct (revenueGrowth i) as [r |]; [| discriminate].
    destruct (gtb_reflect r REV_GROWTH_CAP) as [G | G]; [discriminate |].
    injection Eg as <-. unfold REV_GROWTH_CAP in G. lra.
  - unfold eps_pass in He. apply orb_true_iff in He. destruct He as [He | He];
      apply present_gt_true in He; destruct He as (x & Ex & Lx); [left | right];
      exists x; (split; [exact Ex |]); (split; [exact Lx |]).
    + rewrite evidence_eps_growth in Ex.
      destruct (earningsGrowth i) as [r |]; [| discriminate].
      destruct (gtb_reflect (Qabs r) EPS_GROWTH_CAP) as [G | G]; [discriminate |].
      injection Ex as ->. unfold EPS_GROWTH_CAP in G.
      pose proof (Qle_Qabs x). lra.
    + rewrite evidence_eps_growth_forward in Ex.
      destruct (trailingEps i) as [a |]; [| discriminate].
      destruct (forwardEps i) as [f |]; [| discriminate].
      destruct (Py.gtb (Qabs a) (1 # 100)); [| discriminate].
      destruct (gtb_reflect (Qabs ((f - a) / Qabs a)) EPS_GROWTH_CAP) as [G | G];
        [discriminate |].
      destruct (Py.ltb (Qabs a) (50 # 100) && Py.gtb f 5); [discriminate |].
      injection Ex as <-. unfold EPS_GROWTH_CAP in G.
      pose proof (Qle_Qabs ((f - a) / Qabs a)). lra.
  - pose proof Eu as Eu'. rewrite evidence_upside in Eu'. rewrite evidence_price.
    destruct (match targetMeanPrice i with None => _ | Some tp => _ end) as [tp |];
      [| discriminate].
    destruct (Tech.price tech) as [p |]; [| discriminate].
    destruct (gtb_reflect p 0) as [P | P]; [| discriminate].
    exists u, p. split; [exact Eu |]. split; [exact Lu |].
    split; [reflexivity | exact P].
Qed.

(** X7.  A result that passed Layer 2 reports an RSI below 60 and a
    drawdown above -35; when the volume spike is required it reports one. *)
Theorem layer2_pass_thresholds (t : string) (rvs : bool) :
  layer2_pass (analyze_ticker w t rvs) = true ->
  (exists r, rsi14 (analyze_ticker w t rvs) = Some r /\ r < 60)
  /\ (exists dd, drawdown_52w_pct (analyze_ticker w t rvs) = Some dd /\ - 35 < dd)
  /\ (rvs = true -> vol_spike (analyze_ticker w t rvs) = Some true).
Proof.
  intros H.
  destruct (analyze_ticker_outcome w t rvs)
    as [[e E] | (tk & i & hist & _ & _ & _ & C & _ & L2 & _)].
  { rewrite E in H. discriminate H. }
  destruct C as (_ & _ & _ & _ & _ & _ & _ & _ & _ & Cr & Cd & Cs & _).
  rewrite Cr, Cd, Cs. rewrite L2 in H. apply andb_true_iff in H. destruct H as [_ H].
  unfold layer2 in H. destruct rvs.
  - repeat rewrite andb_true_iff in H. destruct H as ((Hr & Hd) & Hs).
    apply present_lt_true in Hr. apply present_gt_true in Hd.
    split; [exact Hr |]. split; [exact Hd |]. intros _.
    destruct (Tech.vol_spike _) as [[|] |]; [reflexivity | discriminate | discriminate].
  - rewrite andb_true_iff in H. destruct H as (Hr & Hd).
    apply present_lt_true in Hr. apply present_gt_true in Hd.
    split; [exact Hr |]. split; [exact Hd |]. discriminate.
Qed.

End FunnelProperties.

Lemma layer1_pass_thresholds_witness :
  layer1_pass (analyze_ticker Sample.market "GOOD" false) = true
  /\ exists p, peg (analyze_ticker Sample.market "GOOD" false) = Some p /\ p < 2.
Proof.
  assert (H : layer1_pass (analyze_ticker Sample.market "GOOD" false) = true)
    by (vm_compute; reflexivity).
  split; [exact H |].
  destruct (layer1_pass_thresholds Sample.market "GOOD" false H) as (_ & _ & P & _).
  exact P.
Defined.

Lemma layer2_pass_thresholds_witness :
  layer2_pass (analyze_ticker Sample.market "GOOD" false) = true
  /\ exists r, rsi14 (analyze_ticker Sample.market "GOOD" false) = Some r /\ r < 60.
Proof.
  assert (H : layer2_pass (analyze_ticker Sample.market "GOOD" false) = true)
    by (vm_compute; reflexivity).
  split; [exact H |].
  destruct (layer2_pass_thresholds Sample.market "GOOD" false H) as (R & _).
  exact R.
Defined.

Section FunnelEdges.

Variable w : Collaborators.

(** X8.  No result reports a revenue growth above 200% or an EPS growth,
    quarterly or forward, of magnitude above 400%; a reported forward growth
    is (forward - trailing) / |trailing| with |trailing| > 0.01, outside the
    low-base case. *)
Theorem reported_growth_within_caps (t : string) (rvs : bool) (g : Q) :
  (revenue_growth (analyze_ticker w t rvs) = Some g -> g <= 2)
  /\ (eps_growth (analyze_ticker w t rvs) = Some g -> Qabs g <= 4)
  /\ (eps_growth_forward (analyze_ticker w t rvs) = Some g ->
      Qabs g <= 4
      /\ exists a f,
          trailing_eps (analyze_ticker w t rvs) = Some a
          /\ forward_eps (analyze_ticker w t rvs) = Some f
          /\ 1 # 100 < Qabs a
          /\ g = (f - a) / Qabs a
          /\ ~ (Qabs a < 50 # 100 /\ 5 < f)).
Proof.
  destruct (analyze_ticker_outcome w t rvs)
    as [[e ->] | (tk & i & hist & _ & _ & _ & C & _)].
  { repeat split; discriminate. }
  destruct C as (_ & Cr & Ce & Cf & Ct & Cfw & _).
  rewrite Cr, Ce, Cf, Ct, Cfw. clear Cr Ce Cf Ct Cfw.
  set (tech := get_technical_metrics (rsi_last w) hist).
  set (qe := quarterly_earnings tk).
  destruct (evidence_eps i tech qe) as (Et & Ef & _). rewrite Et, Ef.
  rewrite evidence_rev_growth, evidence_eps_growth, evidence_eps_growth_forward.
  split; [| split].
  - destruct (revenueGrowth i) as [r |]; [| discriminate].
    destruct (gtb_reflect r REV_GROWTH_CAP) as [G | G]; [discriminate |].
    intros E. injection E as <-. unfold REV_GROWTH_CAP in G. lra.
  - destruct (earningsGrowth i) as [r |]; [| discriminate].
    destruct (gtb_reflect (Qabs r) EPS_GROWTH_CAP) as [G | G]; [discriminate |].
    intros E. injection E as <-. unfold EPS_GROWTH_CAP in G. lra.
  - destruct (trailingEps i) as [a |]; [| discriminate].
    destruct (forwardEps i) as [f |]; [| discriminate].
    destruct (gtb_reflect (Qabs a) (1 # 100)) as [A | A]; [| discriminate].
    destruct (gtb_reflect (Qabs ((f - a) / Qabs a)) EPS_GROWTH_CAP) as [G | G];
      [discriminate |].
    destruct (ltb_reflect (Qabs a) (50 # 100)) as [B | B];
      destruct (gtb_reflect f 5) as [F | F]; cbn [andb]; try discriminate;
      intros E; injection E as <-; unfold EPS_GROWTH_CAP in G;
      (split; [lra |]); exists a, f; repeat split; auto; tauto.
Qed.

(** X9.  When a ticker passes Layers 1 and 2 and the expiration listing then
    raises, the result is the failure record: the evidence is dropped and all
    three flags, Layer 1 included, are false. *)
Theorem listing_failure_drops_evidence (t : string) (rvs : bool) tk i hist (e : exn) :
  yf_Ticker w (upper_strip w t) = inr tk ->
  info tk = inr i ->
  history tk = inr hist ->
  layer1 (evidence i (get_technical_metrics (rsi_last w) hist) (quarterly_earnings tk))
  = true ->
  layer2 (get_technical_metrics (rsi_last w) hist) rvs = true ->
  options tk = inl e ->
  analyze_ticker w t rvs = processing_failed (upper_strip w t) e
  /\ layer1_pass (analyze_ticker w t rvs) = false
  /\ revenue_growth (analyze_ticker w t rvs) = None
  /\ reason (analyze_ticker w t rvs) = ("处理失败：" ++ e)%string.
Proof.
  intros Htk Hi Hh L1 L2 Hos.
  rewrite (analyze_ticker_fetched w t rvs tk i hist Htk Hi Hh). unfold layers.
  rewrite L1, L2. cbn [negb].
  rewrite (proj2 (get_option_metrics_raises (strptime w) (today w) tk _ _ e) Hos).
  cbn [bind]. repeat split.
Qed.

(** X10.  The scan returns one result per ticker, in the order of the
    universe, each named by its normalised ticker. *)
Theorem scan_keeps_universe_order (universe : list string) (rvs : bool) :
  map ticker (scan w universe rvs) = map (upper_strip w) universe.
Proof.
  rewrite scan_map, map_map. apply map_ext. intros t.
  destruct (analyze_ticker_shape w t rvs)
    as [[e ->] | [(l1 & l2 & why & ev & tech & ->) | (ev & tech & opt & ->)]];
    reflexivity.
Qed.


(** X12.  A primary PEG below 0.2 is flagged and kept: the result reports it
    as its PEG. *)
Theorem low_peg_is_flagged_and_kept (t : string) (rvs : bool) tk i hist os (p : Q) :
  yf_Ticker w (upper_strip w t) = inr tk ->
  info tk = inr i ->
  history tk = inr hist ->
  options tk = inr os ->
  pegRatio i = Some p ->
  p < 2 # 10 ->
  peg (analyze_ticker w t rvs) = Some p
  /\ exists fl, sanity_flags (analyze_ticker w t rvs) = Some fl /\ In (PegFlag p) fl.
Proof.
  intros Htk Hi Hh Hos Hp Hlow.
  destruct (analyze_ticker_carries w t rvs tk i hist os Htk Hi Hh Hos)
    as (_ & _ & _ & _ & _ & _ & Cp & _ & _ & _ & _ & _ & _ & Cfl).
  rewrite Cp, Cfl, evidence_peg, Hp. split; [reflexivity |].
  apply flags_or_none_In. apply evidence_flags_peg; assumption.
Qed.

(** X13.  The low-base rule: a trailing EPS of magnitude below 0.50 with a
    forward EPS above 5.0 is flagged, the forward EPS growth is nulled, and
    both EPS values are kept. *)
Theorem low_base_nulls_forward_growth (t : string) (rvs : bool) tk i hist os (a f : Q) :
  yf_Ticker w (upper_strip w t) = inr tk ->
  info tk = inr i ->
  history tk = inr hist ->
  options tk = inr os ->
  trailingEps i = Some a ->
  forwardEps i = Some f ->
  Qabs a < 50 # 100 ->
  5 < f ->
  eps_growth_forward (analyze_ticker w t rvs) = None
  /\ trailing_eps (analyze_ticker w t rvs) = Some a
  /\ forward_eps (analyze_ticker w t rvs) = Some f
  /\ exists fl, sanity_flags (analyze_ticker w t rvs) = Some fl
                /\ In (LowBaseFlag a f) fl.
Proof.
  intros Htk Hi Hh Hos Ha Hf Hlow Hhigh.
  destruct (analyze_ticker_carries w t rvs tk i hist os Htk Hi Hh Hos)
    as (_ & _ & _ & Cf & Ct & Cfw & _ & _ & _ & _ & _ & _ & _ & Cfl).
  rewrite Cf, Ct, Cfw, Cfl.
  destruct (evidence_eps i (get_technical_metrics (rsi_last w) hist)
                         (quarterly_earnings tk)) as (Et & Ef & _).
  rewrite Et, Ef, evidence_eps_growth_forward, Ha, Hf.
  split; [| split; [reflexivity | split; [reflexivity |]]].
  - destruct (Py.gtb (Qabs a) (1 # 100)); [| reflexivity].
    destruct (Py.gtb (Qabs ((f - a) / Qabs a)) EPS_GROWTH_CAP); [reflexivity |].
    destruct (ltb_reflect (Qabs a) (50 # 100)) as [_ | N]; [| contradiction].
    destruct (gtb_reflect f 5) as [_ | N]; [reflexivity | contradiction].
  - apply flags_or_none_In. apply evidence_flags_low_base; assumption.
Qed.

End FunnelEdges.

Lemma listing_failure_drops_evidence_witness :
  yf_Ticker Cases.market (upper_strip Cases.market "NOLIST") = inr Cases.no_listing
  /\ options Cases.no_listing = inl "listing unavailable"%string
  /\ layer1_pass (analyze_ticker Cases.market "NOLIST" false) = false
  /\ reason (analyze_ticker Cases.market "NOLIST" false)
     = "处理失败：listing unavailable"%string.
Proof.
  split; [reflexivity |]. split; [reflexivity |].
  assert (L1 : layer1 (evidence Sample.good_info
                         (get_technical_metrics (rsi_last Cases.market)
                                                (Some (Sample.bars 125 100)))
                         (quarterly_earnings Cases.no_listing)) = true)
    by (vm_compute; reflexivity).
  assert (L2 : layer2 (get_technical_metrics (rsi_last Cases.market)
                                             (Some (Sample.bars 125 100))) false = true)
    by (vm_compute; reflexivity).
  destruct (listing_failure_drops_evidence Cases.market "NOLIST" false
              Cases.no_listing Sample.good_info (Some (Sample.bars 125 100))
              "listing unavailable"%string eq_refl eq_refl eq_refl L1 L2 eq_refl)
    as (_ & F & _ & R).
  split; [exact F | exact R].
Defined.

Lemma low_peg_is_flagged_and_kept_witness :
  yf_Ticker Cases.market (upper_strip Cases.market "LOWPEG") = inr Cases.low_peg
  /\ pegRatio Cases.low_peg_info = Some (1 # 10)
  /\ 1 # 10 < 2 # 10
  /\ peg (analyze_ticker Cases.market "LOWPEG" false) = Some (1 # 10)
  /\ exists fl, sanity_flags (analyze_ticker Cases.market "LOWPEG" false) = Some fl
                /\ In (PegFlag (1 # 10)) fl.
Proof.
  split; [reflexivity |]. split; [reflexivity |]. split; [reflexivity |].
  apply (low_peg_is_flagged_and_kept Cases.market "LOWPEG" false Cases.low_peg
           Cases.low_peg_info (Some (Sample.bars 125 100)) Sample.listing (1 # 10)
           eq_refl eq_refl eq_refl eq_refl eq_refl eq_refl).
Defined.

Lemma low_base_nulls_forward_growth_witness :
  yf_Ticker Cases.market (upper_strip Cases.market "LOWBASE") = inr Cases.low_base
  /\ trailingEps Cases.low_base_info = Some (2 # 10)
  /\ forwardEps Cases.low_base_info = Some 6
  /\ Qabs (2 # 10) < 50 # 100
  /\ 5 < 6
  /\ eps_growth_forward (analyze_ticker Cases.market "LOWBASE" false) = None
  /\ forward_eps (analyze_ticker Cases.market "LOWBASE" false) = Some 6.
Proof.
  split; [reflexivity |]. split; [reflexivity |]. split; [reflexivity |].
  split; [reflexivity |]. split; [reflexivity |].
  destruct (low_base_nulls_forward_growth Cases.market "LOWBASE" false Cases.low_base
              Cases.low_base_info (Some (Sample.bars 125 100)) Sample.listing
              (2 # 10) 6 eq_refl eq_refl eq_refl eq_refl eq_refl eq_refl
              eq_refl eq_refl) as (G & _ & F & _).
  split; [exact G | exact F].
Defined.

(** ** Technical metrics *)

Lemma series_max_fold_ge (s : list (option Q)) (acc : option Q) :
  exists h,
    fold_left
      (fun acc x =>
         match acc, x with
         | None, _ => x
         | Some a, Some b => Some (Qmax a b)
         | Some _, None => acc
         end) s acc = h
    /\ (forall a, acc = Some a -> exists m, h = Some m /\ a <= m)
    /\ (forall v, In (Some v) s -> exists m, h = Some m /\ v <= m).
Proof.
  revert acc. induction s as [| x r IH]; intros acc; cbn [fold_left].
  - exists acc. split; [reflexivity |]. split.
    + intros a ->. exists a. split; [reflexivity | apply Qle_refl].
    + intros v [].
  - destruct (IH (match acc, x with
                  | None, _ => x
                  | Some a, Some b => Some (Qmax a b)
                  | Some _, None => acc
                  end)) as (h & Hh & Hacc & Hin).
    exists h. split; [exact Hh |]. split.
    + intros a ->. destruct x as [b |].
      * destruct (Hacc (Qmax a b) eq_refl) as (m & Hm & L). exists m.
        split; [exact Hm |]. eapply Qle_trans; [apply Q.le_max_l | exact L].
      * apply (Hacc a eq_refl).
    + intros v [-> | Hv]; [| apply (Hin v Hv)].
      destruct acc as [a |].
      * destruct (Hacc (Qmax a v) eq_refl) as (m & Hm & L). exists m.
        split; [exact Hm |]. eapply Qle_trans; [apply Q.le_max_r | exact L].
      * apply (Hacc v eq_refl).
Qed.

Lemma series_max_ge (s : list (option Q)) (v : Q) :
  In (Some v) s -> exists m, series_max s = Some m /\ v <= m.
Proof.
  intros H. unfold series_max.
  destruct (series_max_fold_ge s None) as (h & Hh & _ & Hin).
  rewrite Hh. apply (Hin v H).
Qed.

Lemma iloc_last_In (s : list (option Q)) (v : Q) :
  iloc_last s = Some v -> In (Some v) s.
Proof.
  unfold iloc_last. induction s as [| x r IH]; [discriminate |].
  cbn [last]. destruct r as [| y r'].
  - intros ->. left. reflexivity.
  - intros H. right. apply IH. exact H.
Qed.

Section ExtractorFacts.

Variable rsi_last : list (option Q) -> nat -> option Q.

(** X14.  A drawdown, when it is defined, is never positive: the latest
    close is at most the highest close of the window. *)
Theorem drawdown_is_never_positive (hist : option (list Bar)) (dd : Q) :
  Tech.drawdown_52w_pct (get_technical_metrics rsi_last hist) = Some dd ->
  dd <= 0
  /\ exists p, Tech.price (get_technical_metrics rsi_last hist) = Some p.
Proof.
  unfold get_technical_metrics. destruct hist as [bars |]; [| discriminate].
  destruct (List.length bars <? 30)%nat; [discriminate |].
  cbn [Tech.drawdown_52w_pct Tech.price].
  destruct (iloc_last (map Close bars)) as [p |] eqn:Hp; [| discriminate].
  destruct (series_max_ge (map Close bars) p (iloc_last_In _ _ Hp)) as (m & Hm & L).
  rewrite Hm. destruct (Py.truthy (Some m)); [| discriminate].
  destruct (gtb_reflect m 0) as [P | P]; [| discriminate].
  cbn [andb]. intros E. injection E as <-. split; [| eauto].
  assert (D : p / m <= 1) by (apply Qle_shift_div_r; [exact P | lra]).
  lra.
Qed.

(** X15.  The volume spike is defined exactly when the volume ratio is, and
    it is true exactly when the ratio exceeds 1.5. *)
Theorem volume_spike_follows_ratio (hist : option (list Bar)) :
  match Tech.vol_ratio (get_technical_metrics rsi_last hist) with
  | Some r =>
      exists b, Tech.vol_spike (get_technical_metrics rsi_last hist) = Some b
                /\ (b = true <-> 15 # 10 < r)
  | None => Tech.vol_spike (get_technical_metrics rsi_last hist) = None
  end.
Proof.
  unfold get_technical_metrics. destruct hist as [bars |]; [| reflexivity].
  destruct (List.length bars <? 30)%nat; [reflexivity |].
  cbn [Tech.vol_ratio Tech.vol_spike].
  destruct (match rolling_mean_last 20 (map Volume bars) with
            | Some m => _ | None => _ end) as [r |]; [| reflexivity].
  exists (Py.gtb r (15 # 10)). split; [reflexivity |].
  destruct (gtb_reflect r (15 # 10)); split; auto; discriminate.
Qed.

End ExtractorFacts.

Lemma drawdown_is_never_positive_witness :
  Tech.drawdown_52w_pct
    (get_technical_metrics Sample.rsi_last (Some (Sample.bars 125 100)))
  = Some (- 2500 # 125)
  /\ - 2500 # 125 <= 0.
Proof.
  assert (H : Tech.drawdown_52w_pct
                (get_technical_metrics Sample.rsi_last (Some (Sample.bars 125 100)))
              = Some (- 2500 # 125)) by (vm_compute; reflexivity).
  split; [exact H |].
  apply (drawdown_is_never_positive Sample.rsi_last (Some (Sample.bars 125 100))
           (- 2500 # 125) H).
Defined.

(** ** Short histories, sub-scores, spread and the better EPS growth *)

Section ShortHistory.

Variable w : Collaborators.

(** X16.  With fewer than 30 bars no technical metric is computed, and the
    ticker stops at Layer 1 because no upside can be derived. *)
Theorem short_history_stops_at_layer1 (t : string) (rvs : bool) tk i bars :
  yf_Ticker w (upper_strip w t) = inr tk ->
  info tk = inr i ->
  history tk = inr (Some bars) ->
  (List.length bars < 30)%nat ->
  current_price (analyze_ticker w t rvs) = None
  /\ rsi14 (analyze_ticker w t rvs) = None
  /\ drawdown_52w_pct (analyze_ticker w t rvs) = None
  /\ vol_ratio (analyze_ticker w t rvs) = None
  /\ vol_spike (analyze_ticker w t rvs) = None
  /\ upside (analyze_ticker w t rvs) = None
  /\ layer1_pass (analyze_ticker w t rvs) = false
  /\ reason (analyze_ticker w t rvs) = "未通过 Layer 1 基本面筛选"%string.
Proof.
  intros Htk Hi Hh Hlen.
  rewrite (analyze_ticker_fetched w t rvs tk i _ Htk Hi Hh).
  assert (T : get_technical_metrics (rsi_last w) (Some bars)
              = Tech.mk None None None None None).
  { unfold get_technical_metrics. apply Nat.ltb_lt in Hlen. rewrite Hlen. reflexivity. }
  assert (U : Ev.upside (evidence i (get_technical_metrics (rsi_last w) (Some bars))
                                  (quarterly_earnings tk)) = None).
  { apply evidence_upside_absent. rewrite T. reflexivity. }
  rewrite layers_stop_at_layer1.
  - cbn [stopped current_price rsi14 drawdown_52w_pct vol_ratio vol_spike upside
                 layer1_pass reason].
    rewrite U, evidence_price, T. repeat split.
  - rewrite layer1_clauses. unfold upside_clause. rewrite U. cbn [present_gt].
    apply andb_false_r.
Qed.

End ShortHistory.

Lemma short_history_stops_at_layer1_witness :
  yf_Ticker Cases.market (upper_strip Cases.market "SHORT") = inr Cases.short_history
  /\ (List.length Cases.short_bars < 30)%nat
  /\ layer1_pass (analyze_ticker Cases.market "SHORT" false) = false
  /\ upside (analyze_ticker Cases.market "SHORT" false) = None.
Proof.
  assert (L : (List.length Cases.short_bars < 30)%nat) by (cbn; lia).
  split; [reflexivity |]. split; [exact L |].
  destruct (short_history_stops_at_layer1 Cases.market "SHORT" false
              Cases.short_history Sample.good_info Cases.short_bars
              eq_refl eq_refl eq_refl L) as (_ & _ & _ & _ & _ & U & F & _).
  split; [exact F | exact U].
Defined.

Lemma mean3_range (a b c : Q) :
  0 <= a <= 100 -> 0 <= b <= 100 -> 0 <= c <= 100 ->
  0 <= Py.mean [a; b; c] <= 100.
Proof.
  intros Ha Hb Hc. unfold Py.mean. cbn [fold_right List.length].
  change (inject_Z (Z.of_nat 3)) with 3. split.
  - apply Qle_shift_div_l; lra.
  - apply Qle_shift_div_r; lra.
Qed.

Lemma mean4_range (a b c d : Q) :
  0 <= a <= 100 -> 0 <= b <= 100 -> 0 <= c <= 100 -> 0 <= d <= 100 ->
  0 <= Py.mean [a; b; c; d] <= 100.
Proof.
  intros Ha Hb Hc Hd. unfold Py.mean. cbn [fold_right List.length].
  change (inject_Z (Z.of_nat 4)) with 4. split.
  - apply Qle_shift_div_l; lra.
  - apply Qle_shift_div_r; lra.
Qed.

(** X17.  Every sub-score of the scorer, the three means included, lies in
    [0,100], whatever the metrics and whatever [log10] returns. *)
Theorem sub_scores_in_range (log10 : Q -> Q) (m : Metrics.t) :
  Forall (fun s => 0 <= s <= 100)
    [s_rev (sub_scores log10 m); s_eps (sub_scores log10 m);
     s_peg (sub_scores log10 m); s_mcap (sub_scores log10 m);
     s_fund (sub_scores log10 m); s_val (sub_scores log10 m);
     s_rsi (sub_scores log10 m); s_dd (sub_scores log10 m);
     s_vol (sub_scores log10 m); s_tech (sub_scores log10 m);
     s_cat (sub_scores log10 m); s_spread (sub_scores log10 m);
     s_move (sub_scores log10 m); s_iv (sub_scores log10 m);
     s_opt (sub_scores log10 m)].
Proof.
  assert (Dd : 0 <= s_dd (sub_scores log10 m) <= 100).
  { unfold sub_scores. cbn [s_dd].
    destruct (Py.ltb _ _); [split; discriminate |].
    destruct (_ && _); [split; discriminate |].
    destruct (Py.ltb _ _); split; discriminate. }
  assert (Iv : 0 <= s_iv (sub_scores log10 m) <= 100).
  { unfold sub_scores. cbn [s_iv].
    destruct (Metrics.iv_rank m); [apply clamp_range | split; discriminate]. }
  repeat constructor; try apply clamp_range; try exact (proj1 Dd); try exact (proj2 Dd);
    try exact (proj1 Iv); try exact (proj2 Iv).
  - apply mean4_range; apply clamp_range.
  - apply mean4_range; apply clamp_range.
  - apply mean3_range; [apply clamp_range | exact Dd | apply clamp_range].
  - apply mean3_range; [apply clamp_range | exact Dd | apply clamp_range].
  - apply mean3_range; [apply clamp_range | apply clamp_range | exact Iv].
  - apply mean3_range; [apply clamp_range | apply clamp_range | exact Iv].
Qed.




(** X19.  The EPS growth handed to the scorer is the larger of the quarterly
    and the forward growth when both are present, the present one when only
    one is, and absent when both are. *)
Theorem best_eps_growth_is_the_larger (ev : Ev.t) :
  match Ev.eps_growth ev, Ev.eps_growth_forward ev with
  | Some g, Some f =>
      exists b, best_eps_growth ev = Some b /\ g <= b /\ f <= b /\ (b = g \/ b = f)
  | Some g, None => best_eps_growth ev = Some g
  | None, Some f => best_eps_growth ev = Some f
  | None, None => best_eps_growth ev = None
  end.
Proof.
  unfold best_eps_growth.
  destruct (Ev.eps_growth ev) as [g |], (Ev.eps_growth_forward ev) as [f |];
    try reflexivity.
  destruct (gtb_reflect f g) as [L | L]; eexists; (split; [reflexivity |]).
  - repeat split; [lra | lra | right; reflexivity].
  - repeat split; [lra | lra | left; reflexivity].
Qed.

(** ** Report selection *)

Lemma by_score_desc_total (a b : StockResult) :
  by_score_desc a b = true \/ by_score_desc b a = true.
Proof.
  unfold by_score_desc.
  destruct (leb_reflect (score b) (score a)); [left; reflexivity |].
  destruct (leb_reflect (score a) (score b)); [right; reflexivity |].
  exfalso. lra.
Qed.

Lemma by_score_desc_trans (a b c : StockResult) :
  by_score_desc a b = true -> by_score_desc b c = true -> by_score_desc a c = true.
Proof.
  unfold by_score_desc.
  destruct (leb_reflect (score b) (score a)); [| discriminate].
  destruct (leb_reflect (score c) (score b)); [| discriminate].
  destruct (leb_reflect (score c) (score a)); [reflexivity |].
  intros _ _. exfalso. lra.
Qed.

Lemma firstn_incl {A : Type} (n : nat) (l : list A) (x : A) :
  In x (firstn n l) -> In x l.
Proof.
  revert l. induction n as [| n IH]; intros l H; [contradiction |].
  destruct l as [| y r]; [contradiction |]. cbn [firstn] in H.
  destruct H as [-> | H]; [left; reflexivity | right; apply IH; exact H].
Qed.

Lemma firstn_sorted {A : Type} (R : A -> A -> Prop) (n : nat) (l : list A) :
  StronglySorted R l -> StronglySorted R (firstn n l).
Proof.
  revert l. induction n as [| n IH]; intros l S; [constructor |].
  destruct S as [| x r S Hall]; cbn [firstn]; constructor; [apply IH; exact S |].
  rewrite Forall_forall in *. intros y Hy. apply Hall. eapply firstn_incl. exact Hy.
Qed.

(** X20.  The report's funnel counters split the results: every result is
    counted once, as eliminated by Layer 1, by Layer 2, by Layer 3 or as
    passed; and every passed result is listed once, as clean or as flagged. *)
Theorem report_counters_partition (results : list StockResult) :
  (l1_fail results + l2_fail results + l3_fail results
   + List.length (report_passed results) = List.length results)%nat
  /\ (List.length (report_clean results) + List.length (report_flagged results)
      = List.length (report_passed results))%nat.
Proof.
  unfold l1_fail, l2_fail, l3_fail, count_if, report_clean, report_flagged,
    report_passed, all_layers.
  induction results as [| r rest [IH1 IH2]]; [split; reflexivity |].
  cbn [filter List.length].
  destruct (layer1_pass r), (layer2_pass r), (layer3_pass r); cbn [negb andb];
    cbn [filter List.length]; try (split; lia).
  destruct (has_flags r); cbn [negb filter List.length]; split; lia.
Qed.

(** X21.  The main list of the report holds at most [top_n] records, each a
    result that passed all three layers and carries no anomaly flag, in
    descending order of score. *)
Theorem top_clean_spec (results : list StockResult) (top_n : nat) :
  (List.length (top_clean results top_n) <= top_n)%nat
  /\ (forall r, In r (top_clean results top_n) ->
        In r results
        /\ layer1_pass r = true /\ layer2_pass r = true /\ layer3_pass r = true
        /\ has_flags r = false)
  /\ StronglySorted (fun a b => score b <= score a) (top_clean results top_n).
Proof.
  unfold top_clean, clean_sorted. split; [apply firstn_le_length |]. split.
  - intros r Hr. apply firstn_incl in Hr. apply (proj1 (sort_by_In by_score_desc r _)) in Hr.
    unfold report_clean, report_passed in Hr.
    apply filter_In in Hr. destruct Hr as [Hr Hf].
    apply filter_In in Hr. destruct Hr as [Hr Ha].
    unfold all_layers in Ha. repeat rewrite andb_true_iff in Ha.
    destruct Ha as [[A B] C]. apply negb_true_iff in Hf. auto.
  - apply firstn_sorted.
    pose proof (sort_by_sorted by_score_desc by_score_desc_total by_score_desc_trans
                  (report_clean results)) as S.
    induction S as [| x r S IH Hall]; constructor; [exact IH |].
    rewrite Forall_forall in *. intros y Hy.
    specialize (Hall y Hy). unfold by_score_desc in Hall.
    destruct (leb_reflect (score y) (score x)); [assumption | discriminate].
Qed.

(** X22.  The score of a result that passed all three layers is the
    scorer's value on the fields the result itself reports. *)
Theorem score_is_recomputable (w : Collaborators) (t : string) (rvs : bool) :
  layer3_pass (analyze_ticker w t rvs) = true ->
  score (analyze_ticker w t rvs)
  = score_stock (log10 w) (metrics_of_result (analyze_ticker w t rvs)).
Proof.
  destruct (analyze_ticker_shape w t rvs)
    as [[e ->] | [(l1 & l2 & why & ev & tech & ->) | (ev & tech & opt & ->)]];
    intros X; try discriminate X.
  reflexivity.
Qed.

Lemma score_is_recomputable_witness :
  layer3_pass (analyze_ticker Sample.market "GOOD" false) = true
  /\ score (analyze_ticker Sample.market "GOOD" false)
     = score_stock Sample.log10
         (metrics_of_result (analyze_ticker Sample.market "GOOD" false)).
Proof.
  assert (H : layer3_pass (analyze_ticker Sample.market "GOOD" false) = true)
    by (vm_compute; reflexivity).
  split; [exact H |].
  apply (score_is_recomputable Sample.market "GOOD" false H).
Defined.

(** ** The PEG fallback in Layer 1 and in the score *)

Lemma clamp_at_least (lo v : Q) : lo <= 100 -> lo <= v -> lo <= clamp v.
Proof.
  intros H100 Hv. unfold clamp.
  eapply Qle_trans; [| apply Q.le_max_r]. apply Q.min_glb; assumption.
Qed.

Lemma clamp_more_than (lo v : Q) : lo < 100 -> lo < v -> lo < clamp v.
Proof.
  intros H100 Hv. unfold clamp.
  eapply Qlt_le_trans; [| apply Q.le_max_r].
  destruct (Q.min_spec 100 v) as [[_ E] | [_ E]]; rewrite E; assumption.
Qed.

Lemma clamp_above (v : Q) : 100 <= v -> clamp v == 100.
Proof.
  intros H. unfold clamp. rewrite (Q.min_l 100 v) by exact H.
  apply Q.max_r. discriminate.
Qed.

Lemma round2_at_least (z : Z) (q : Q) :
  inject_Z z <= q * 100 -> q <= 100 -> inject_Z z / 100 <= Py.round2 q.
Proof.
  intros Hlo Hhi.
  assert (H : (z <= Py.round_half_even (q * 100) <= 10000)%Z).
  { apply round_half_even_range. split; [exact Hlo |].
    change (inject_Z 10000) with 10000. lra. }
  destruct H as [Ha _]. unfold Py.round2. rewrite Zle_Qle in Ha.
  apply Qle_shift_div_l; [reflexivity |].
  assert (E : inject_Z z / 100 * 100 == inject_Z z) by field.
  apply Qle_trans with (inject_Z z); [rewrite E; apply Qle_refl | exact Ha].
Qed.

(** The weighted sum behind the score, and the parts that are never
    negative. *)
Lemma score_stock_unfold (log10 : Q -> Q) (m : Metrics.t) :
  score_stock log10 m
  = Py.round2
      (clamp (s_fund (sub_scores log10 m) * (25 # 100)
              + s_val (sub_scores log10 m) * (20 # 100)
              + s_tech (sub_scores log10 m) * (15 # 100)
              + s_cat (sub_scores log10 m) * (20 # 100)
              + s_opt (sub_scores log10 m) * (20 # 100))).
Proof. reflexivity. Qed.

Lemma s_fund_unfold (log10 : Q -> Q) (m : Metrics.t) :
  s_fund (sub_scores log10 m)
  = Py.mean [s_rev (sub_scores log10 m); s_eps (sub_scores log10 m);
             s_peg (sub_scores log10 m); s_mcap (sub_scores log10 m)].
Proof. reflexivity. Qed.

Lemma other_sub_scores_nonneg (log10 : Q -> Q) (m : Metrics.t) :
  0 <= s_rev (sub_scores log10 m)
  /\ 0 <= s_eps (sub_scores log10 m)
  /\ 0 <= s_mcap (sub_scores log10 m)
  /\ 0 <= s_tech (sub_scores log10 m)
  /\ 0 <= s_cat (sub_scores log10 m)
  /\ 0 <= s_opt (sub_scores log10 m).
Proof.
  assert (Dd : 0 <= s_dd (sub_scores log10 m) <= 100).
  { unfold sub_scores. cbn [s_dd].
    destruct (Py.ltb _ _); [split; discriminate |].
    destruct (_ && _); [split; discriminate |].
    destruct (Py.ltb _ _); split; discriminate. }
  assert (Iv : 0 <= s_iv (sub_scores log10 m) <= 100).
  { unfold sub_scores. cbn [s_iv].
    destruct (Metrics.iv_rank m); [apply clamp_range | split; discriminate]. }
  split; [apply clamp_range |]. split; [apply clamp_range |].
  split; [apply clamp_range |]. split; [| split; [apply clamp_range |]].
  - apply (mean3_range (s_rsi (sub_scores log10 m)) (s_dd (sub_scores log10 m))
             (s_vol (sub_scores log10 m)));
      [apply clamp_range | exact Dd | apply clamp_range].
  - apply (mean3_range (s_spread (sub_scores log10 m)) (s_move (sub_scores log10 m))
             (s_iv (sub_scores log10 m)));
      [apply clamp_range | apply clamp_range | exact Iv].
Qed.

(** With a PEG [q] below 0.2 the fundamental PEG term is at its top, the
    valuation term is above 90, and the two carry the score to 24.25 at
    least. *)
Lemma low_peg_in_score (log10 : Q -> Q) (m : Metrics.t) (q : Q) :
  Metrics.peg m = Some q -> q < 2 # 10 ->
  s_peg (sub_scores log10 m) = clamp ((2 - q) / (15 # 10) * 100)
  /\ s_val (sub_scores log10 m) = clamp ((2 - q) / 2 * 100)
  /\ s_peg (sub_scores log10 m) == 100
  /\ 90 < s_val (sub_scores log10 m)
  /\ 2425 # 100 <= score_stock log10 m.
Proof.
  intros Hp Hq.
  assert (Ep : s_peg (sub_scores log10 m) = clamp ((2 - q) / (15 # 10) * 100)).
  { unfold sub_scores. cbn [s_peg]. rewrite Hp. reflexivity. }
  assert (Ev : s_val (sub_scores log10 m) = clamp ((2 - q) / 2 * 100)).
  { unfold sub_scores. cbn [s_val]. rewrite Hp. reflexivity. }
  assert (P100 : s_peg (sub_scores log10 m) == 100).
  { rewrite Ep. apply clamp_above.
    setoid_replace ((2 - q) / (15 # 10) * 100) with ((2 - q) * (200 # 3)) by field.
    lra. }
  assert (V90 : 90 < s_val (sub_scores log10 m)).
  { rewrite Ev. apply clamp_more_than; [reflexivity |].
    setoid_replace ((2 - q) / 2 * 100) with ((2 - q) * 50) by field. lra. }
  split; [exact Ep |]. split; [exact Ev |]. split; [exact P100 |]. split; [exact V90 |].
  destruct (other_sub_scores_nonneg log10 m) as (Nr & Ne & Nm & Nt & Nc & No).
  assert (F : 25 <= s_fund (sub_scores log10 m)).
  { rewrite s_fund_unfold. unfold Py.mean. cbn [fold_right List.length].
    change (inject_Z (Z.of_nat 4)) with 4. apply Qle_shift_div_l; lra. }
  rewrite score_stock_unfold.
  change (2425 # 100) with (inject_Z 2425 / 100).
  apply round2_at_least; [| apply clamp_range].
  change (inject_Z 2425) with 2425.
  assert (C : 2425 # 100 <= clamp (s_fund (sub_scores log10 m) * (25 # 100)
              + s_val (sub_scores log10 m) * (20 # 100)
              + s_tech (sub_scores log10 m) * (15 # 100)
              + s_cat (sub_scores log10 m) * (20 # 100)
              + s_opt (sub_scores log10 m) * (20 # 100))).
  { apply clamp_at_least; [discriminate | lra]. }
  lra.
Qed.

Section PegFallback.

Variable w : Collaborators.

(** C9.  With the primary PEG absent and a trailing PEG below 0.2, the
    trailing value is the PEG of the result and satisfies the PEG clause of
    Layer 1, and no PEG anomaly is flagged.  On a full pass it is the PEG
    the scorer works with: the PEG term of the fundamental score is
    clamp((2 - q)/1.5*100) = 100, the valuation score is clamp((2 - q)/2*100),
    above 90, both enter the weighted sum behind the score, and the score is
    24.25 at least. *)
Theorem trailing_peg_fallback_unflagged (t : string) (rvs : bool) tk i hist os (q : Q) :
  yf_Ticker w (upper_strip w t) = inr tk ->
  info tk = inr i ->
  history tk = inr hist ->
  options tk = inr os ->
  pegRatio i = None ->
  trailingPegRatio i = Some q ->
  q < 2 # 10 ->
  let tech := get_technical_metrics (rsi_last w) hist in
  let ev := evidence i tech (quarterly_earnings tk) in
  peg (analyze_ticker w t rvs) = Some q
  /\ (forall fl p, sanity_flags (analyze_ticker w t rvs) = Some fl -> ~ In (PegFlag p) fl)
  /\ peg_clause ev = true
  /\ layer1_pass (analyze_ticker w t rvs)
     = revenue_clause ev && eps_pass ev && market_cap_clause ev && upside_clause ev
  /\ (layer3_pass (analyze_ticker w t rvs) = true ->
      exists opt,
        get_option_metrics (strptime w) (today w) tk
          (Py.or_else (Ev.price ev) 0) LONG_DTE_MONTHS = inr opt
        /\ Metrics.peg (metrics_of ev tech opt) = Some q
        /\ score (analyze_ticker w t rvs)
           = score_stock (log10 w) (metrics_of ev tech opt)
        /\ s_peg (sub_scores (log10 w) (metrics_of ev tech opt))
           = clamp ((2 - q) / (15 # 10) * 100)
        /\ s_val (sub_scores (log10 w) (metrics_of ev tech opt))
           = clamp ((2 - q) / 2 * 100)
        /\ s_peg (sub_scores (log10 w) (metrics_of ev tech opt)) == 100
        /\ 90 < s_val (sub_scores (log10 w) (metrics_of ev tech opt))
        /\ s_fund (sub_scores (log10 w) (metrics_of ev tech opt))
           = Py.mean [s_rev (sub_scores (log10 w) (metrics_of ev tech opt));
                      s_eps (sub_scores (log10 w) (metrics_of ev tech opt));
                      s_peg (sub_scores (log10 w) (metrics_of ev tech opt));
                      s_mcap (sub_scores (log10 w) (metrics_of ev tech opt))]
        /\ score (analyze_ticker w t rvs)
           = Py.round2
               (clamp
                  (s_fund (sub_scores (log10 w) (metrics_of ev tech opt)) * (25 # 100)
                   + s_val (sub_scores (log10 w) (metrics_of ev tech opt)) * (20 # 100)
                   + s_tech (sub_scores (log10 w) (metrics_of ev tech opt)) * (15 # 100)
                   + s_cat (sub_scores (log10 w) (metrics_of ev tech opt)) * (20 # 100)
                   + s_opt (sub_scores (log10 w) (metrics_of ev tech opt)) * (20 # 100)))
        /\ 2425 # 100 <= score (analyze_ticker w t rvs)).
Proof.
  intros Htk Hi Hh Hos Hp Htp Hq tech ev.
  rewrite (analyze_ticker_fetched w t rvs tk i hist Htk Hi Hh).
  assert (Hpeg : Ev.peg ev = Some q).
  { unfold ev. rewrite evidence_peg, Hp. exact Htp. }
  assert (Hcl : peg_clause ev = true).
  { unfold peg_clause. rewrite Hpeg. cbn [present_lt].
    destruct (ltb_reflect q PEG_MAX) as [_ | N]; [reflexivity |].
    exfalso. apply N. unfold PEG_MAX. lra. }
  assert (Hfl : forall fl p, flags_or_none (Ev.sanity_flags ev) = Some fl ->
                             ~ In (PegFlag p) fl).
  { intros fl p E Hin.
    assert (X : existsb is_peg_flag (Ev.sanity_flags ev) = false)
      by (apply evidence_flags_no_peg; exact Hp).
    destruct (Ev.sanity_flags ev) as [| f r]; [discriminate |].
    injection E as <-.
    assert (Y : existsb is_peg_flag (f :: r) = true)
      by (apply existsb_exists; exists (PegFlag p); split; [exact Hin | reflexivity]).
    congruence. }
  assert (Hl1 : layer1 ev
                = revenue_clause ev && eps_pass ev && market_cap_clause ev
                  && upside_clause ev).
  { rewrite layer1_clauses, Hcl.
    destruct (revenue_clause ev), (eps_pass ev), (market_cap_clause ev),
      (upside_clause ev); reflexivity. }
  rewrite <- Hl1. unfold layers. fold tech. fold ev.
  destruct (layer1 ev); cbn [negb ret].
  2:{ cbn [stopped peg sanity_flags layer1_pass layer3_pass].
      repeat split; auto. discriminate. }
  destruct (layer2 tech rvs); cbn [negb ret].
  2:{ cbn [stopped peg sanity_flags layer1_pass layer3_pass].
      repeat split; auto. discriminate. }
  destruct (get_option_metrics_returns (strptime w) (today w) tk
              (Py.or_else (Ev.price ev) 0) LONG_DTE_MONTHS os Hos) as (opt & Hopt & _).
  rewrite Hopt. cbn [bind].
  destruct (Opt.layer3_pass opt); cbn [negb ret].
  - cbn [passed peg sanity_flags layer1_pass layer3_pass score].
    split; [exact Hpeg |]. split; [exact Hfl |]. split; [exact Hcl |].
    split; [reflexivity |]. intros _. exists opt.
    assert (Mp : Metrics.peg (metrics_of ev tech opt) = Some q) by exact Hpeg.
    destruct (low_peg_in_score (log10 w) (metrics_of ev tech opt) q Mp Hq)
      as (Ep & Ev' & P100 & V90 & S).
    split; [reflexivity |]. split; [exact Mp |]. split; [reflexivity |].
    split; [exact Ep |]. split; [exact Ev' |]. split; [exact P100 |].
    split; [exact V90 |]. split; [reflexivity |]. split; [reflexivity | exact S].
  - cbn [stopped peg sanity_flags layer1_pass layer3_pass].
    repeat split; auto. discriminate.
Qed.

End PegFallback.

Lemma trailing_peg_fallback_unflagged_witness :
  yf_Ticker Sample.market (upper_strip Sample.market "TPEG") = inr Sample.trailing_peg
  /\ info Sample.trailing_peg = inr Sample.trailing_peg_info
  /\ history Sample.trailing_peg = inr (Some (Sample.bars 125 100))
  /\ options Sample.trailing_peg = inr Sample.listing
  /\ pegRatio Sample.trailing_peg_info = None
  /\ trailingPegRatio Sample.trailing_peg_info = Some (1 # 10)
  /\ 1 # 10 < 2 # 10
  /\ peg (analyze_ticker Sample.market "TPEG" false) = Some (1 # 10)
  /\ (forall fl p,
         sanity_flags (analyze_ticker Sample.market "TPEG" false) = Some fl ->
         ~ In (PegFlag p) fl)
  /\ layer3_pass (analyze_ticker Sample.market "TPEG" false) = true
  /\ 2425 # 100 <= score (analyze_ticker Sample.market "TPEG" false).
Proof.
  split; [reflexivity |]. split; [reflexivity |]. split; [reflexivity |].
  split; [reflexivity |]. split; [reflexivity |]. split; [reflexivity |].
  split; [reflexivity |].
  assert (L3 : layer3_pass (analyze_ticker Sample.market "TPEG" false) = true)
    by (vm_compute; reflexivity).
  destruct (trailing_peg_fallback_unflagged Sample.market "TPEG" false
              Sample.trailing_peg Sample.trailing_peg_info
              (Some (Sample.bars 125 100)) Sample.listing (1 # 10)
              eq_refl eq_refl eq_refl eq_refl eq_refl eq_refl eq_refl)
    as (P & F & _ & _ & S).
  split; [exact P |]. split; [exact F |]. split; [exact L3 |].
  destruct (S L3) as (opt & _ & _ & _ & _ & _ & _ & _ & _ & _ & B). exact B.
Defined.
